(** * PointNav-v1 dataset loader (habitat/datasets/pointnav/pointnav_dataset.py)

    A shallow embedding of [PointNavDatasetV1]: the record parser
    [from_json], the scene discoverer [_get_scenes_from_folder], the loader
    [__init__] and the class method [get_scenes_to_load], together with the
    few pieces of the Python runtime they rely on.

    Conventions.
    - A Python [str] is a Rocq [string] holding its UTF-8 bytes.  Prefix and
      suffix tests, splitting on an ASCII separator, slicing at a boundary
      found by such a test and code-point ordering all agree with their
      byte-level counterparts on UTF-8 text.
    - An exception is a value of [exn]; a call that may raise returns a
      [result].
    - A method runs in the monad [M S]: it threads a state and, when it
      raises, hands back the state reached at that point, since Python
      leaves the object as mutated so far.
    - Calls into the [os], [gzip] and [json] modules are appended to a
      trace, so that statements such as "no shard is opened" can be made. *)

From Stdlib Require Import Ascii.
From stdpp Require Import base list strings sorting.

Set Warnings "-register-all".

(** ** Exceptions and results *)

Inductive exn :=
| FileNotFoundError | OSError | JSONDecodeError | KeyError
| IndexError | TypeError | ValueError | AttributeError.

Inductive result (A : Type) :=
| Ok (a : A)
| Raise (e : exn).
Arguments Ok {A} a.
Arguments Raise {A} e.

Definition rbind {A B} (r : result A) (k : A → result B) : result B :=
  match r with
  | Ok a => k a
  | Raise e => Raise e
  end.

Notation "'let?' x := r 'in' k" := (rbind r (λ x, k))
  (at level 10, x name, r at level 100, k at level 200,
   format "'[v' 'let?'  x  :=  r  'in'  '/' k ']'").


Definition is_DeserializationError (e : exn) : bool :=
  match e with
  | JSONDecodeError | KeyError | TypeError | ValueError | AttributeError => true
  | _ => false
  end.

(** [mapM] over [result], left to right, stopping at the first exception. *)
Fixpoint rmapM {A B} (f : A → result B) (l : list A) : result (list B) :=
  match l with
  | [] => Ok []
  | x :: l' =>
      let? y := f x in
      let? ys := rmapM f l' in
      Ok (y :: ys)
  end.

(** ** Strings *)

Module Str.

Definition chars : string → list ascii := String.list_ascii_of_string.
Definition of_chars : list ascii → string := String.string_of_list_ascii.

(** [s.startswith(p)] and [s.endswith(p)]. *)
Definition startswith (s p : string) : bool :=
  bool_decide (chars p `prefix_of` chars s).
Definition endswith (s p : string) : bool :=
  bool_decide (chars p `suffix_of` chars s).

(** [s[start:]] for a non-negative [start]. *)
Definition slice_from (start : nat) (s : string) : string :=
  of_chars (drop start (chars s)).

(** [s[:stop]] for any integer [stop]: a negative [stop] counts from the
    end, and [-0] is [0]. *)
Definition slice_upto (stop : Z) (s : string) : string :=
  let n := Z.of_nat (String.length s) in
  let stop' := if bool_decide (stop < 0)%Z then Z.max 0 (n + stop) else Z.min stop n in
  of_chars (take (Z.to_nat stop') (chars s)).

(** [s.split(sep)] for a non-empty [sep]: cut at every occurrence of [sep],
    scanning left to right; occurrences do not overlap.  [skip] counts the
    characters of a separator still to be passed over and [cur] holds, in
    reverse, the piece being read. *)
Fixpoint split_go (sep : list ascii) (skip : nat) (cur : list ascii)
    (s : list ascii) : list (list ascii) :=
  match s with
  | [] => [reverse cur]
  | c :: s' =>
      match skip with
      | S k => split_go sep k cur s'
      | O =>
          if bool_decide (sep `prefix_of` s)
          then reverse cur :: split_go sep (length sep - 1) [] s'
          else split_go sep 0 (c :: cur) s'
      end
  end.

Definition split (s sep : string) : list string :=
  of_chars <$> split_go (chars sep) 0 [] (chars s).

(** [sub in s] for two strings. *)
Fixpoint contains_go (sub s : list ascii) : bool :=
  bool_decide (sub `prefix_of` s) ||
  match s with
  | [] => false
  | _ :: s' => contains_go sub s'
  end.
Definition contains (s sub : string) : bool := contains_go (chars sub) (chars s).

End Str.

(** ** posixpath *)

Module posixpath.

Definition sep : ascii := "/"%char.

(** [os.path.join(a, b)]: an absolute [b] replaces [a]; otherwise the two
    are glued with exactly one separator unless [a] is empty or already
    ends with one. *)
Definition join (a b : string) : string :=
  if Str.startswith b "/" then b
  else if bool_decide (a = "") || Str.endswith a "/" then a +:+ b
  else a +:+ "/" +:+ b.

(** [os.path.dirname(p)]:
    [i = p.rfind('/') + 1; head = p[:i]], and when [head] is neither empty
    nor made of separators only, [head = head.rstrip('/')].  The scan runs
    over the reversed path. *)
Fixpoint drop_until_sep (l : list ascii) : list ascii :=
  match l with
  | [] => []
  | c :: l' => if bool_decide (c = sep) then l else drop_until_sep l'
  end.

Fixpoint drop_seps (l : list ascii) : list ascii :=
  match l with
  | [] => []
  | c :: l' => if bool_decide (c = sep) then drop_seps l' else l
  end.

Definition dirname (p : string) : string :=
  let rhead := drop_until_sep (reverse (Str.chars p)) in
  let rhead' := drop_seps rhead in
  Str.of_chars (reverse (match rhead' with [] => rhead | _ => rhead' end)).

End posixpath.

(** ** Python values

    What [json.loads] returns, plus instances of record classes.  Numbers
    keep their literal: the loader never computes with them.  A [dict]
    keeps its entries in insertion order, which is the order Python
    iterates them in. *)

Inductive pyobj :=
| PNone
| PBool (b : bool)
| PNum (literal : string)
| PStr (s : string)
| PList (items : list pyobj)
| PDict (entries : list (string * pyobj))
| PInstance (cls : string) (attrs : list (string * pyobj)).

Definition kwargs := list (string * pyobj).

Fixpoint dict_get (d : kwargs) (key : string) : option pyobj :=
  match d with
  | [] => None
  | (k, v) :: d' => if bool_decide (k = key) then Some v else dict_get d' key
  end.

Definition is_str (key : string) (o : pyobj) : bool :=
  match o with
  | PStr s => bool_decide (s = key)
  | _ => false
  end.

(** [key in o] for a string [key]. *)
Definition py_contains (key : string) (o : pyobj) : result bool :=
  match o with
  | PDict d => Ok (bool_decide (is_Some (dict_get d key)))
  | PList l => Ok (existsb (is_str key) l)
  | PStr s => Ok (Str.contains s key)
  | _ => Raise TypeError
  end.

(** [o[key]] for a string [key]: only a dict can be indexed by a string. *)
Definition py_getitem (o : pyobj) (key : string) : result pyobj :=
  match o with
  | PDict d =>
      match dict_get d key with
      | Some v => Ok v
      | None => Raise KeyError
      end
  | _ => Raise TypeError
  end.

(** The items a [for] loop draws from [o]: the elements of a list, the
    characters of a string, the keys of a dict. *)
Definition py_iter (o : pyobj) : result (list pyobj) :=
  match o with
  | PList l => Ok l
  | PStr s => Ok ((λ c, PStr (String c "")) <$> Str.chars s)
  | PDict d => Ok (PStr <$> d.*1)
  | _ => Raise TypeError
  end.

(** [**o] in a call: the argument must be a mapping. *)
Definition py_kwargs (o : pyobj) : result kwargs :=
  match o with
  | PDict d => Ok d
  | _ => Raise TypeError
  end.

(** [o[i] = v] for an integer [i].  A string rejects item assignment.  A
    dict would take [i] as a new key; [PDict] has string keys only, and the
    loops below never reach that case: iterating a dict yields its keys,
    strings, on which [**] raises first. *)
Definition py_setitem (o : pyobj) (i : nat) (v : pyobj) : result pyobj :=
  match o with
  | PList l => if bool_decide (i < length l) then Ok (PList (<[i:=v]> l)) else Raise IndexError
  | _ => Raise TypeError
  end.

(** ** Records of habitat.tasks.nav.nav *)

Record NavigationEpisode := mkEpisode {
  episode_id : pyobj;
  scene_id : pyobj;
  start_position : pyobj;
  start_rotation : pyobj;
  goals : pyobj;
  shortest_paths : pyobj;
}.

Definition set_scene_id (v : pyobj) (e : NavigationEpisode) : NavigationEpisode :=
  mkEpisode (episode_id e) v (start_position e) (start_rotation e) (goals e) (shortest_paths e).
Definition set_goals (v : pyobj) (e : NavigationEpisode) : NavigationEpisode :=
  mkEpisode (episode_id e) (scene_id e) (start_position e) (start_rotation e) v (shortest_paths e).
Definition set_shortest_paths (v : pyobj) (e : NavigationEpisode) : NavigationEpisode :=
  mkEpisode (episode_id e) (scene_id e) (start_position e) (start_rotation e) (goals e) v.

Definition episode_required : list string :=
  ["episode_id"; "scene_id"; "start_position"; "start_rotation"; "goals"].
Definition episode_optional : list string := ["shortest_paths"].

(** Modelled from the spec: the constructor of [NavigationEpisode], a class
    of habitat.tasks.nav.nav that is not among the sources.  Sections 3 and
    6 list its fields: an id, [scene_id], start position and rotation and
    the goals, all required, and the shortest paths, which may be absent or
    null.  Sections 4.3 and 9: construction from the keyword arguments
    fails when a required field is missing or a field is not one the
    record declares. *)
Definition NavigationEpisode_init (kw : kwargs) : result NavigationEpisode :=
  if bool_decide (Forall (λ k, k ∈ episode_required ++ episode_optional) kw.*1) then
    match dict_get kw "episode_id", dict_get kw "scene_id",
          dict_get kw "start_position", dict_get kw "start_rotation",
          dict_get kw "goals" with
    | Some i, Some s, Some p, Some r, Some g =>
        Ok (mkEpisode i s p r g (default PNone (dict_get kw "shortest_paths")))
    | _, _, _, _, _ => Raise TypeError
    end
  else Raise TypeError.

(** An episode object lacks a required field. *)
Definition missing_required (episode : pyobj) : Prop :=
  match episode with
  | PDict kw => ∃ k, k ∈ episode_required ∧ dict_get kw k = None
  | _ => False
  end.

(** ** The loader's surroundings *)

Record Config := mkConfig {
  data_path : string;
  split : string;
  scenes_dir : option string;
  content_scenes : list string;
}.

Definition set_content_scenes (v : list string) (c : Config) : Config :=
  mkConfig (data_path c) (split c) (scenes_dir c) v.

(** The Python library calls whose behaviour is taken as given.
    [json_loads] answers [None] where [json.loads] raises
    [JSONDecodeError]; [str_format t kw] is [t.format] applied to the keyword arguments [kw];
    [gzip_read p] is [gzip.open(p, "rt")] followed by [read()]. *)
Record runtime := mkRuntime {
  json_loads : string → option pyobj;
  str_format : string → list (string * string) → result string;
  os_path_exists : string → bool;
  os_listdir : string → result (list string);
  gzip_read : string → result string;
}.

(** What the module imports from the rest of habitat: the sentinel and the
    helpers of the base [Dataset] class, and the two record classes that
    the parser instantiates but never looks into. *)
Record collaborators := mkCollaborators {
  ALL_SCENES_MASK : string;
  NavigationGoal : kwargs → result pyobj;
  ShortestPathPoint : kwargs → result pyobj;
  build_content_scenes_filter : Config → result (NavigationEpisode → result bool);
  scene_ids : list NavigationEpisode → result (list pyobj);
  scene_from_scene_path : pyobj → result string;
}.

(** ** State and exceptions *)

Definition M (S A : Type) : Type := S → result A * S.

Definition ret {S A} (a : A) : M S A := λ s, (Ok a, s).
Definition raise {S A} (e : exn) : M S A := λ s, (Raise e, s).
Definition lift {S A} (r : result A) : M S A := λ s, (r, s).
Definition bind {S A B} (m : M S A) (k : A → M S B) : M S B :=
  λ s, match m s with
       | (Ok a, s') => k a s'
       | (Raise e, s') => (Raise e, s')
       end.
Definition gets {S A} (f : S → A) : M S A := λ s, (Ok (f s), s).
Definition modify {S} (f : S → S) : M S unit := λ s, (Ok tt, f s).

Notation "x <- m ;; k" := (bind m (λ x, k))
  (at level 100, m at next level, right associativity,
   format "'[v' x  <-  m  ;;  '/' k ']'").
Notation "m ;; k" := (bind m (λ _, k))
  (at level 100, right associativity,
   format "'[v' m  ;;  '/' k ']'").

(** A [for] loop whose body may raise. *)
Fixpoint for_each {S A} (l : list A) (body : A → M S unit) : M S unit :=
  match l with
  | [] => ret tt
  | x :: l' => body x ;; for_each l' body
  end.

(** [list(filter(p, l))] for a predicate that may raise. *)
Fixpoint rfilter {A} (p : A → result bool) (l : list A) : result (list A) :=
  match l with
  | [] => Ok []
  | x :: l' =>
      let? keep := p x in
      let? rest := rfilter p l' in
      Ok (if keep : bool then x :: rest else rest)
  end.

Inductive event :=
| os_path_exists_call (path : string)
| os_listdir_call (path : string)
| gzip_open_call (path : string)
| json_loads_call (text : string).

Definition IO := M (list event).

Record PointNavDatasetV1 := mkDataset {
  episodes : list NavigationEpisode;
  content_scenes_path : pyobj;
}.

Record object_state := mkState {
  self : PointNavDatasetV1;
  trace : list event;
}.

Definition Method := M object_state.

Definition io {A} (m : IO A) : Method A :=
  λ st, let '(r, tr) := m (trace st) in (r, mkState (self st) tr).

Definition set_episodes (eps : list NavigationEpisode) : Method unit :=
  modify (λ st, mkState (mkDataset eps (content_scenes_path (self st))) (trace st)).
Definition set_content_scenes_path (v : pyobj) : Method unit :=
  modify (λ st, mkState (mkDataset (episodes (self st)) v) (trace st)).
Definition append_episode (e : NavigationEpisode) : Method unit :=
  modify (λ st, mkState (mkDataset (episodes (self st) ++ [e]) (content_scenes_path (self st)))
                        (trace st)).

Definition CONTENT_SCENES_PATH_FIELD : string := "content_scenes_path".
Definition DEFAULT_SCENE_PATH_PREFIX : string := "data/scene_datasets/".

(** The class attribute a fresh instance starts from. *)
Definition default_content_scenes_path : string := "{data_path}/content/{scene}.json.gz".

(** ** The module under study *)

Section PointNav.

Variable rt : runtime.
Variable hab : collaborators.

(** *** Library calls, traced *)

Definition log (e : event) : IO unit := modify (λ tr, tr ++ [e]).

Definition json_loads_io (text : string) : IO pyobj :=
  log (json_loads_call text) ;;
  match json_loads rt text with
  | Some v => ret v
  | None => raise JSONDecodeError
  end.

Definition os_path_exists_io (path : string) : IO bool :=
  log (os_path_exists_call path) ;;
  ret (os_path_exists rt path).

Definition os_listdir_io (path : string) : IO (list string) :=
  log (os_listdir_call path) ;;
  lift (os_listdir rt path).

Definition gzip_read_io (path : string) : IO string :=
  log (gzip_open_call path) ;;
  lift (gzip_read rt path).

(** [l[i]] on the list a [split] returned. *)
Definition index (l : list string) (i : nat) : result string :=
  match l !! i with
  | Some x => Ok x
  | None => Raise IndexError
  end.

(** [template.split("{scene}")], for whatever object the attribute holds:
    only a [str] has the method. *)
Definition split_scene (template : pyobj) : result (list string) :=
  match template with
  | PStr t => Ok (Str.split t "{scene}")
  | _ => Raise AttributeError
  end.

Definition format_template (template : pyobj) (kw : list (string * string)) : result string :=
  match template with
  | PStr t => str_format rt t kw
  | _ => Raise AttributeError
  end.

(** *** from_json *)

(** Lines 170-178: strip the default prefix when present, then join with
    the asset root. *)
Definition rewrite_scene_id (scenes_dir : string) (scene_id : string) : string :=
  let scene_id :=
    if Str.startswith scene_id DEFAULT_SCENE_PATH_PREFIX
    then Str.slice_from (String.length DEFAULT_SCENE_PATH_PREFIX) scene_id
    else scene_id in
  posixpath.join scenes_dir scene_id.

(** [for i, item in enumerate(container)]: [container[i]] becomes [ctor]
    applied to the keyword arguments [item]; [items] is what remains to be
    visited from index [i] on. *)
Fixpoint convert_from (ctor : kwargs → result pyobj) (i : nat) (items : list pyobj)
    (container : pyobj) : result pyobj :=
  match items with
  | [] => Ok container
  | item :: rest =>
      let? kw := py_kwargs item in
      let? v := ctor kw in
      let? container := py_setitem container i v in
      convert_from ctor (S i) rest container
  end.

Definition convert_items (ctor : kwargs → result pyobj) (container : pyobj) : result pyobj :=
  let? items := py_iter container in
  convert_from ctor 0 items container.

(** Lines 182-185.  The paths are converted in place: a list of paths ends
    up holding the converted paths, while the items drawn from a string or
    from the keys of a dict are temporaries. *)
Definition convert_paths (paths : pyobj) : result pyobj :=
  match paths with
  | PNone => Ok PNone
  | _ =>
      let? items := py_iter paths in
      let? items' := rmapM (convert_items (ShortestPathPoint hab)) items in
      Ok (match paths with PList _ => PList items' | _ => paths end)
  end.

(** The body of the loop of [from_json], up to the [append]. *)
Definition parse_episode (scenes_dir : option string) (episode : pyobj)
    : result NavigationEpisode :=
  let? kw := py_kwargs episode in
  let? episode := NavigationEpisode_init kw in
  let? episode :=
    match scenes_dir with
    | Some root =>
        match scene_id episode with
        | PStr s => Ok (set_scene_id (PStr (rewrite_scene_id root s)) episode)
        | _ => Raise AttributeError
        end
    | None => Ok episode
    end in
  let? gs := convert_items (NavigationGoal hab) (goals episode) in
  let episode := set_goals gs episode in
  let? ps := convert_paths (shortest_paths episode) in
  Ok (set_shortest_paths ps episode).

Definition from_json (json_str : string) (scenes_dir : option string) : Method unit :=
  deserialized <- io (json_loads_io json_str) ;;
  declared <- lift (py_contains CONTENT_SCENES_PATH_FIELD deserialized) ;;
  (if declared : bool then
     v <- lift (py_getitem deserialized CONTENT_SCENES_PATH_FIELD) ;;
     set_content_scenes_path v
   else ret tt) ;;
  eps <- lift (py_getitem deserialized "episodes") ;;
  items <- lift (py_iter eps) ;;
  for_each items (λ episode,
    episode <- lift (parse_episode scenes_dir episode) ;;
    append_episode episode).

(** *** _get_scenes_from_folder *)

Definition _get_scenes_from_folder (content_scenes_path : pyobj) (dataset_dir : string)
    : IO (list string) :=
  parts <- lift (split_scene content_scenes_path) ;;
  content_dir <- lift (index parts 0) ;;
  parts' <- lift (split_scene content_scenes_path) ;;
  scene_dataset_ext <- lift (index parts' 1) ;;
  content_dir <- lift (str_format rt content_dir [("data_path", dataset_dir)]) ;;
  present <- os_path_exists_io content_dir ;;
  if negb present then ret []
  else
    filenames <- os_listdir_io content_dir ;;
    let scenes :=
      (λ filename, Str.slice_upto (- Z.of_nat (String.length scene_dataset_ext)) filename)
        <$> filter (λ filename, Str.endswith filename scene_dataset_ext = true) filenames in
    ret (merge_sort String.le scenes).

(** *** __init__ *)

Definition has_individual_scene_files (template : pyobj) (dataset_dir : string) : IO bool :=
  parts <- lift (split_scene template) ;;
  content_dir <- lift (index parts 0) ;;
  content_dir <- lift (str_format rt content_dir [("data_path", dataset_dir)]) ;;
  os_path_exists_io content_dir.

(** The body of the loop over the scenes, lines 136-141. *)
Definition load_scene (dataset_dir : string) (scenes_dir : option string) (scene : string)
    : Method unit :=
  template <- gets (λ st, content_scenes_path (self st)) ;;
  scene_filename <- lift (format_template template [("data_path", dataset_dir); ("scene", scene)]) ;;
  text <- io (gzip_read_io scene_filename) ;;
  from_json text scenes_dir.

Definition __init__ (config : option Config) : Method unit :=
  set_episodes [] ;;
  match config with
  | None => ret tt
  | Some config =>
      datasetfile_path <- lift (str_format rt (data_path config) [("split", split config)]) ;;
      text <- io (gzip_read_io datasetfile_path) ;;
      from_json text (scenes_dir config) ;;
      let dataset_dir := posixpath.dirname datasetfile_path in
      template <- gets (λ st, content_scenes_path (self st)) ;;
      sharded <- io (has_individual_scene_files template dataset_dir) ;;
      if sharded : bool then
        let scenes := content_scenes config in
        scenes <-
          (if bool_decide (ALL_SCENES_MASK hab ∈ scenes) then
             template <- gets (λ st, content_scenes_path (self st)) ;;
             io (_get_scenes_from_folder template dataset_dir)
           else ret scenes) ;;
        for_each scenes (load_scene dataset_dir (scenes_dir config))
      else
        keep <- lift (build_content_scenes_filter hab config) ;;
        eps <- gets (λ st, episodes (self st)) ;;
        kept <- lift (rfilter keep eps) ;;
        set_episodes kept
  end.

(** [cls(config)]: run [__init__] on a fresh instance, which starts from
    the class attribute; when it raises, the instance is lost. *)
Definition new_dataset (config : option Config) : IO PointNavDatasetV1 :=
  λ tr,
    let '(r, st) := __init__ config (mkState (mkDataset [] (PStr default_content_scenes_path)) tr) in
    (match r with Ok _ => Ok (self st) | Raise e => Raise e end, trace st).

(** *** check_config_paths_exist, get_scenes_to_load *)

Definition check_config_paths_exist (config : Config) : IO bool :=
  datasetfile_path <- lift (str_format rt (data_path config) [("split", split config)]) ;;
  file_present <- os_path_exists_io datasetfile_path ;;
  if file_present : bool then
    match scenes_dir config with
    | Some d => os_path_exists_io d
    | None => raise TypeError
    end
  else ret false.

Definition get_scenes_to_load (config : Config) : IO (list string) :=
  datasetfile_path <- lift (str_format rt (data_path config) [("split", split config)]) ;;
  let dataset_dir := posixpath.dirname datasetfile_path in
  present <- check_config_paths_exist config ;;
  if negb present then raise FileNotFoundError
  else
    let cfg := set_content_scenes [] config in
    dataset <- new_dataset (Some cfg) ;;
    sharded <- has_individual_scene_files (content_scenes_path dataset) dataset_dir ;;
    if sharded : bool then
      _get_scenes_from_folder (content_scenes_path dataset) dataset_dir
    else
      let cfg := set_content_scenes [ALL_SCENES_MASK hab] cfg in
      dataset <- new_dataset (Some cfg) ;;
      ids <- lift (scene_ids hab (episodes dataset)) ;;
      lift (rmapM (scene_from_scene_path hab) ids).

End PointNav.

(** ** A small concrete world

    A formatter, a decoder and a filesystem to run the loader on. *)

Module Demo.

(** JSON text of a value, as [json.dumps] lays it out. *)
Definition quote (s : string) : string :=
  String (ascii_of_nat 34) s +:+ String (ascii_of_nat 34) "".

Fixpoint join_with (sep : string) (l : list string) : string :=
  match l with
  | [] => ""
  | [x] => x
  | x :: l' => x +:+ sep +:+ join_with sep l'
  end.

Fixpoint dumps (o : pyobj) : string :=
  match o with
  | PNone => "null"
  | PBool b => if b then "true" else "false"
  | PNum n => n
  | PStr s => quote s
  | PList l => "[" +:+ join_with ", " (map dumps l) +:+ "]"
  | PDict d => "{" +:+ join_with ", " (map (λ kv, quote kv.1 +:+ ": " +:+ dumps kv.2) d) +:+ "}"
  | PInstance _ _ => "null"
  end.

(** A decoder that knows the documents of [docs] by their text and
    rejects every other text. *)
Definition loads (docs : list pyobj) (text : string) : option pyobj :=
  head (filter (λ d, dumps d = text) docs).

(** [str.format] for templates made of literal text and [{name}] fields. *)
Fixpoint format_go (kw : list (string * string)) (field : option (list ascii))
    (s : list ascii) : result (list ascii) :=
  match s, field with
  | [], None => Ok []
  | [], Some _ => Raise ValueError
  | c :: s', None =>
      if bool_decide (c = "{"%char) then format_go kw (Some []) s'
      else if bool_decide (c = "}"%char) then Raise ValueError
      else let? r := format_go kw None s' in Ok (c :: r)
  | c :: s', Some name =>
      if bool_decide (c = "}"%char) then
        match list_find (λ kv, kv.1 = Str.of_chars (reverse name)) kw with
        | Some (_, (_, v)) => let? r := format_go kw None s' in Ok (Str.chars v ++ r)
        | None => Raise KeyError
        end
      else format_go kw (Some (c :: name)) s'
  end.

Definition format (template : string) (kw : list (string * string)) : result string :=
  let? r := format_go kw None (Str.chars template) in Ok (Str.of_chars r).

(** A filesystem given by its gzip files, with their decompressed text,
    and its directories, with their entries. *)
Record disk := mkDisk {
  files : list (string * string);
  dirs : list (string * list string);
}.

Definition lookup_path {A} (l : list (string * A)) (p : string) : option A :=
  snd <$> (snd <$> list_find (λ kv, kv.1 = p) l).

Definition runtime_of (docs : list pyobj) (d : disk) : runtime :=
  mkRuntime (loads docs) format
    (λ p, bool_decide (is_Some (lookup_path (files d) p) ∨ is_Some (lookup_path (dirs d) p)))
    (λ p, match lookup_path (dirs d) p with Some l => Ok l | None => Raise FileNotFoundError end)
    (λ p, match lookup_path (files d) p with Some t => Ok t | None => Raise FileNotFoundError end).

(** Record classes that check for their required fields only; a filter
    and helpers as section 4.4 of the spec words them. *)
Definition make (cls : string) (required : list string) (kw : kwargs) : result pyobj :=
  if bool_decide (Forall (λ k, is_Some (dict_get kw k)) required)
  then Ok (PInstance cls kw) else Raise TypeError.

(** The characters of [l] before the first [c], and those after it. *)
Fixpoint before (c : ascii) (l : list ascii) : list ascii :=
  match l with
  | [] => []
  | x :: l' => if bool_decide (x = c) then [] else x :: before c l'
  end.

Fixpoint after (c : ascii) (l : list ascii) : option (list ascii) :=
  match l with
  | [] => None
  | x :: l' => if bool_decide (x = c) then Some l' else after c l'
  end.

Definition basename (p : string) : string :=
  Str.of_chars (reverse (before "/"%char (reverse (Str.chars p)))).

Definition stem (name : string) : string :=
  match after "."%char (reverse (Str.chars name)) with
  | Some (c :: r) => Str.of_chars (reverse (c :: r))
  | _ => name
  end.

Definition scene_of (scene_path : pyobj) : result string :=
  match scene_path with
  | PStr p => Ok (stem (basename p))
  | _ => Raise TypeError
  end.

Definition keep (config : Config) : result (NavigationEpisode → result bool) :=
  Ok (λ e,
    if bool_decide ("*" ∈ content_scenes config) then Ok true
    else let? s := scene_of (scene_id e) in Ok (bool_decide (s ∈ content_scenes config))).

Definition ids (eps : list NavigationEpisode) : result (list pyobj) :=
  let? l := rmapM (λ e, match scene_id e with PStr s => Ok s | _ => Raise TypeError end) eps in
  Ok (PStr <$> merge_sort String.le (remove_dups l)).

Definition hab : collaborators :=
  mkCollaborators "*"
    (make "NavigationGoal" ["position"])
    (make "ShortestPathPoint" ["position"; "rotation"])
    keep ids scene_of.

(** Documents. *)
Definition episode (id scene : string) : pyobj :=
  PDict [("episode_id", PStr id); ("scene_id", PStr scene);
         ("start_position", PList [PNum "0"; PNum "0"; PNum "0"]);
         ("start_rotation", PList [PNum "0"; PNum "0"; PNum "0"; PNum "1"]);
         ("goals", PList [PDict [("position", PList [PNum "1"; PNum "0"; PNum "2"])]]);
         ("shortest_paths", PNone)].

Definition document (eps : list pyobj) : pyobj := PDict [("episodes", PList eps)].

Definition adrian : string := "data/scene_datasets/gibson/Adrian.glb".
Definition denmark : string := "data/scene_datasets/gibson/Denmark.glb".

Definition combined_empty : pyobj := document [].
Definition combined_one : pyobj := document [episode "c0" adrian].
Definition shard_adrian : pyobj := document [episode "a0" adrian; episode "a1" adrian].
Definition shard_denmark : pyobj := document [episode "d0" denmark].

(** A document whose second episode lacks every field but its id. *)
Definition truncated : pyobj :=
  document [episode "t0" adrian; PDict [("episode_id", PStr "t1")]].

(** Documents that declare a template. *)
Definition declaring (template : string) : pyobj :=
  PDict [("episodes", PList []); ("content_scenes_path", PStr template)].
Definition first_template : string := "{data_path}/first/{scene}.json.gz".
Definition second_template : string := "{data_path}/second/{scene}.json.gz".

Definition docs : list pyobj :=
  [combined_empty; combined_one; shard_adrian; shard_denmark; truncated;
   declaring first_template; declaring second_template;
   declaring "{data_path}/content/{scene}"].

Definition train : string := "data/datasets/pointnav/gibson/v1/train/train.json.gz".
Definition content : string := "data/datasets/pointnav/gibson/v1/train/content/".

(** A sharded layout: a combined file and two shards. *)
Definition sharded (combined : pyobj) : disk :=
  mkDisk
    [(train, dumps combined);
     (content +:+ "Adrian.json.gz", dumps shard_adrian);
     (content +:+ "Denmark.json.gz", dumps shard_denmark)]
    [("data/datasets/pointnav/gibson/v1/train", ["train.json.gz"; "content"]);
     (content, ["Denmark.json.gz"; "notes.txt"; "Adrian.json.gz"]);
     ("data/scene_datasets", ["gibson"])].

(** A layout whose combined file declares a template that ends with the
    scene token, the shards being named after their scenes. *)
Definition bare : disk :=
  mkDisk
    [(train, dumps (declaring "{data_path}/content/{scene}"))]
    [("data/datasets/pointnav/gibson/v1/train", ["train.json.gz"; "content"]);
     (content, ["Denmark"; "Adrian"]);
     ("data/scene_datasets", ["gibson"])].

(** Nothing installed. *)
Definition nothing : disk := mkDisk [] [].

Definition config (scenes : list string) : Config :=
  mkConfig "data/datasets/pointnav/gibson/v1/{split}/{split}.json.gz" "train"
    (Some "data/scene_datasets") scenes.

End Demo.

(** A new instance, [tr] being the trace so far. *)
Definition fresh (tr : list event) : object_state :=
  mkState (mkDataset [] (PStr default_content_scenes_path)) tr.


(** ** Reading the effect of a call off its arguments *)

Section Effects.

Variable rt : runtime.
Variable hab : collaborators.

(** The episodes the loop of [from_json] appends before it stops, and how
    it stops. *)
Fixpoint parse_prefix (scenes_dir : option string) (items : list pyobj)
    : list NavigationEpisode * result unit :=
  match items with
  | [] => ([], Ok tt)
  | item :: rest =>
      match parse_episode hab scenes_dir item with
      | Ok e => let p := parse_prefix scenes_dir rest in (e :: p.1, p.2)
      | Raise err => ([], Raise err)
      end
  end.

(** The template a decoded document declares, if any (lines 161-162). *)
Definition doc_template (doc : pyobj) : result (option pyobj) :=
  let? declared := py_contains CONTENT_SCENES_PATH_FIELD doc in
  if declared : bool then
    let? v := py_getitem doc CONTENT_SCENES_PATH_FIELD in Ok (Some v)
  else Ok None.

(** The objects the loop of line 164 visits. *)
Definition doc_items (doc : pyobj) : result (list pyobj) :=
  let? eps := py_getitem doc "episodes" in py_iter eps.

(** [from_json] as a function of the dataset alone. *)
Definition from_json_pure (json_str : string) (scenes_dir : option string)
    (d : PointNavDatasetV1) : result unit * PointNavDatasetV1 :=
  match json_loads rt json_str with
  | None => (Raise JSONDecodeError, d)
  | Some doc =>
      match doc_template doc with
      | Raise e => (Raise e, d)
      | Ok t =>
          let template := default (content_scenes_path d) t in
          match doc_items doc with
          | Raise e => (Raise e, mkDataset (episodes d) template)
          | Ok items =>
              let p := parse_prefix scenes_dir items in
              (p.2, mkDataset (episodes d ++ p.1) template)
          end
      end
  end.

(** A method that only appends episodes, may replace the template and
    extends the trace: its run from any state is its run from the blank
    state with the same template, transported. *)
Definition blank (template : pyobj) : object_state := mkState (mkDataset [] template) [].

Definition transport (st : object_state) (run : result unit * object_state)
    : result unit * object_state :=
  (run.1, mkState (mkDataset (episodes (self st) ++ episodes (self run.2))
                             (content_scenes_path (self run.2)))
                  (trace st ++ trace run.2)).

Definition framed (m : Method unit) : Prop :=
  ∀ st, m st = transport st (m (blank (content_scenes_path (self st)))).

(** Loading one shard on its own, under the template [template]. *)
Definition shard_run (template dataset_dir : string) (scenes_dir : option string)
    (scene : string) : result unit * object_state :=
  load_scene rt hab dataset_dir scenes_dir scene (blank (PStr template)).

Definition shard_episodes (template dataset_dir : string) (scenes_dir : option string)
    (scene : string) : list NavigationEpisode :=
  episodes (self (shard_run template dataset_dir scenes_dir scene).2).

Definition shard_trace (template dataset_dir : string) (scenes_dir : option string)
    (scene : string) : list event :=
  trace (shard_run template dataset_dir scenes_dir scene).2.

(** The shard of [scene] can be read and parsed, and leaves the template
    as it is. *)
Definition shard_ok (template dataset_dir : string) (scenes_dir : option string)
    (scene : string) : Prop :=
  (shard_run template dataset_dir scenes_dir scene).1 = Ok tt ∧
  content_scenes_path (self (shard_run template dataset_dir scenes_dir scene).2) = PStr template.

(** The combined file of [config] is at [datasetfile_path], parses into
    the state [st0], and the template then in effect, [template], points
    at the content directory [content_dir], which exists: the layout is
    sharded. *)
Definition sharded_layout (config : Config) (datasetfile_path text : string)
    (st0 : object_state) (template content_dir : string) : Prop :=
  str_format rt (data_path config) [("split", split config)] = Ok datasetfile_path ∧
  gzip_read rt datasetfile_path = Ok text ∧
  from_json rt hab text (scenes_dir config) (fresh []) = (Ok tt, st0) ∧
  content_scenes_path (self st0) = PStr template ∧
  (∃ prefix, Str.split template "{scene}" !! 0 = Some prefix ∧
     str_format rt prefix [("data_path", posixpath.dirname datasetfile_path)] = Ok content_dir) ∧
  os_path_exists rt content_dir = true.

(** The trace of the loader up to the layout test. *)
Definition opening_trace (datasetfile_path text content_dir : string) : list event :=
  [gzip_open_call datasetfile_path; json_loads_call text; os_path_exists_call content_dir].

(** The scene identifiers of the shard files among [filenames]. *)
Definition strip_suffix (suffix filename : string) : string :=
  Str.slice_upto (- Z.of_nat (String.length suffix)) filename.

Definition available_scenes (suffix : string) (filenames : list string) : list string :=
  strip_suffix suffix <$> filter (λ filename, Str.endswith filename suffix = true) filenames.

(** Parsing several documents into one dataset. *)
Definition parse_all (texts : list string) (scenes_dir : option string) : Method unit :=
  for_each texts (λ text, from_json rt hab text scenes_dir).

Definition declared_template (text : string) : option pyobj :=
  match json_loads rt text with
  | Some (PDict d) => dict_get d CONTENT_SCENES_PATH_FIELD
  | _ => None
  end.

Definition first_declared (texts : list string) : option pyobj :=
  head (omap declared_template texts).

Definition last_declared (texts : list string) : option pyobj :=
  last (omap declared_template texts).

Definition parses (scenes_dir : option string) (text : string) : Prop :=
  (from_json rt hab text scenes_dir (blank (PStr default_content_scenes_path))).1 = Ok tt.

(** The document is malformed, or holds an episode object that lacks a
    required field. *)
Definition malformed (text : string) : Prop := json_loads rt text = None.

Definition lacks_field (text : string) : Prop :=
  ∃ d items item,
    json_loads rt text = Some (PDict d) ∧
    dict_get d "episodes" = Some (PList items) ∧
    item ∈ items ∧ missing_required item.

(** The exceptions a collaborator's constructor raises are deserialization
    errors. *)
Definition raises_deserialization (ctor : kwargs → result pyobj) : Prop :=
  ∀ kw e, ctor kw = Raise e → is_DeserializationError e = true.

(** How the [scene_id] of a parsed episode relates to the one given. *)
Definition rewritten (scenes_dir : option string) (given final : pyobj) : Prop :=
  match scenes_dir with
  | None => final = given
  | Some root =>
      ∃ s, given = PStr s ∧
        final = PStr (posixpath.join root
                  (if Str.startswith s "data/scene_datasets/"
                   then Str.slice_from (String.length "data/scene_datasets/") s
                   else s))
  end.


(** The episode objects of a document, none when it does not decode or
    has no iterable under ["episodes"]. *)
Definition decoded_items (text : string) : list pyobj :=
  match json_loads rt text with
  | Some doc => match doc_items doc with Ok items => items | Raise _ => [] end
  | None => []
  end.

(** The file a scene's shard is read from. *)
Definition shard_file (template dataset_dir scene : string) : result string :=
  str_format rt template [("data_path", dataset_dir); ("scene", scene)].

(** *** Readings that leave the combined file, or earlier episodes, out *)

(** A failing parse leaves the collection as it was. *)
Definition no_partial_append (text : string) (scenes_dir : option string)
    (st : object_state) : Prop :=
  malformed text ∨ lacks_field text →
  ∃ e st', from_json rt hab text scenes_dir st = (Raise e, st') ∧
    is_DeserializationError e = true ∧
    episodes (self st') = episodes (self st).

(** The first declared template stays in effect. *)
Definition first_template_wins (texts : list string) (scenes_dir : option string)
    (st : object_state) : Prop :=
  Forall (parses scenes_dir) texts →
  ∃ st', parse_all texts scenes_dir st = (Ok tt, st') ∧
    content_scenes_path (self st') =
      default (content_scenes_path (self st)) (first_declared texts).

(** With the sentinel, the collection is the shards' episodes and nothing
    else. *)
Definition all_scenes_shards_only (config : Config) : Prop :=
  ∀ datasetfile_path text st0 template content_dir suffix filenames,
    sharded_layout config datasetfile_path text st0 template content_dir →
    Str.split template "{scene}" !! 1 = Some suffix →
    ALL_SCENES_MASK hab ∈ content_scenes config →
    os_listdir rt content_dir = Ok filenames →
    let dir := posixpath.dirname datasetfile_path in
    Forall (shard_ok template dir (scenes_dir config)) (available_scenes suffix filenames) →
    ∃ scenes st,
      __init__ rt hab (Some config) (fresh []) = (Ok tt, st) ∧
      scenes ≡ₚ available_scenes suffix filenames ∧
      StronglySorted String.le scenes ∧
      episodes (self st) =
        concat (shard_episodes template dir (scenes_dir config) <$> scenes).

(** With a list of scenes, the collection is the requested shards'
    episodes and nothing else. *)
Definition requested_shards_only (config : Config) : Prop :=
  ∀ datasetfile_path text st0 template content_dir,
    sharded_layout config datasetfile_path text st0 template content_dir →
    content_scenes config ≠ [] →
    ALL_SCENES_MASK hab ∉ content_scenes config →
    let dir := posixpath.dirname datasetfile_path in
    Forall (shard_ok template dir (scenes_dir config)) (content_scenes config) →
    ∃ st,
      __init__ rt hab (Some config) (fresh []) = (Ok tt, st) ∧
      episodes (self st) =
        concat (shard_episodes template dir (scenes_dir config) <$> content_scenes config).

(** With no scene requested, the dataset is empty. *)
Definition no_scenes_empty (config : Config) : Prop :=
  ∀ datasetfile_path text st0 template content_dir,
    sharded_layout config datasetfile_path text st0 template content_dir →
    content_scenes config = [] →
    ∃ st,
      __init__ rt hab (Some config) (fresh []) = (Ok tt, st) ∧
      trace st = opening_trace datasetfile_path text content_dir ∧
      episodes (self st) = [].

End Effects.

(** ** Further notions about the loader *)

Section Layouts.

Variable rt : runtime.
Variable hab : collaborators.

(** The episodes a document yields when parsed on its own. *)
Definition document_episodes (text : string) (scenes_dir : option string)
    : list NavigationEpisode :=
  episodes (self (from_json rt hab text scenes_dir
                    (blank (PStr default_content_scenes_path))).2).

(** [ctor] applied to the keyword arguments [item], as in the two
    conversion loops. *)
Definition construct (ctor : kwargs → result pyobj) (item : pyobj) : result pyobj :=
  let? kw := py_kwargs item in ctor kw.

(** As [sharded_layout], but the content directory is missing: the layout
    is monolithic. *)
Definition monolithic_layout (config : Config) (datasetfile_path text : string)
    (st0 : object_state) (template content_dir : string) : Prop :=
  str_format rt (data_path config) [("split", split config)] = Ok datasetfile_path ∧
  gzip_read rt datasetfile_path = Ok text ∧
  from_json rt hab text (scenes_dir config) (fresh []) = (Ok tt, st0) ∧
  content_scenes_path (self st0) = PStr template ∧
  (∃ prefix, Str.split template "{scene}" !! 0 = Some prefix ∧
     str_format rt prefix [("data_path", posixpath.dirname datasetfile_path)] = Ok content_dir) ∧
  os_path_exists rt content_dir = false.


(** Both paths that [check_config_paths_exist] looks at are there. *)
Definition config_paths_exist (config : Config) (datasetfile_path scenes : string) : Prop :=
  str_format rt (data_path config) [("split", split config)] = Ok datasetfile_path ∧
  os_path_exists rt datasetfile_path = true ∧
  scenes_dir config = Some scenes ∧
  os_path_exists rt scenes = true.

(** The trace of [get_scenes_to_load] on a sharded layout. *)
Definition listing_trace (datasetfile_path scenes text content_dir : string) : list event :=
  [os_path_exists_call datasetfile_path; os_path_exists_call scenes;
   gzip_open_call datasetfile_path; json_loads_call text;
   os_path_exists_call content_dir; os_path_exists_call content_dir;
   os_path_exists_call content_dir; os_listdir_call content_dir].

End Layouts.

(** More documents and disks to run the loader on. *)
Module Samples.

(** An object that declares a template and has no episode list. *)
Definition headless : pyobj := PDict [("content_scenes_path", PStr Demo.first_template)].

(** A top-level list that holds the name of the template field. *)
Definition listing : pyobj := PList [PStr "content_scenes_path"].

Definition docs : list pyobj := Demo.docs ++ [headless; listing].

(** A monolithic layout: the combined file alone. *)
Definition monolithic : Demo.disk :=
  Demo.mkDisk
    [(Demo.train, Demo.dumps Demo.shard_adrian)]
    [("data/datasets/pointnav/gibson/v1/train", ["train.json.gz"]);
     ("data/scene_datasets", ["gibson"])].

(** A sharded layout whose shard of Denmark is listed but cannot be
    opened. *)
Definition broken : Demo.disk :=
  Demo.mkDisk
    [(Demo.train, Demo.dumps Demo.combined_empty);
     (Demo.content +:+ "Adrian.json.gz", Demo.dumps Demo.shard_adrian)]
    [("data/datasets/pointnav/gibson/v1/train", ["train.json.gz"; "content"]);
     (Demo.content, ["Denmark.json.gz"; "Adrian.json.gz"]);
     ("data/scene_datasets", ["gibson"])].


End Samples.

(** ** Plumbing *)

Arguments Str.split : simpl never.
Arguments posixpath.dirname : simpl never.

Ltac monad_unfold :=
  unfold bind, ret, raise, lift, gets, modify, io, log; simpl.

Lemma for_each_parse hab sd items eps csp tr :
  for_each items (λ episode,
      episode <- lift (parse_episode hab sd episode) ;; append_episode episode)
    (mkState (mkDataset eps csp) tr)
  = ((parse_prefix hab sd items).2,
     mkState (mkDataset (eps ++ (parse_prefix hab sd items).1) csp) tr).
Proof.
  revert eps. induction items as [|item rest IH]; intros eps; simpl.
  - by rewrite app_nil_r.
  - unfold bind at 1 2, lift. destruct (parse_episode hab sd item) as [e|err]; simpl.
    + rewrite IH. by rewrite <- app_assoc.
    + by rewrite app_nil_r.
Qed.

Lemma from_json_eq rt hab s sd st :
  from_json rt hab s sd st =
    let run := from_json_pure rt hab s sd (self st) in
    (run.1, mkState run.2 (trace st ++ [json_loads_call s])).
Proof.
  destruct st as [[eps csp] tr].
  unfold from_json, from_json_pure, doc_template, doc_items; simpl.
  unfold bind at 1, io, json_loads_io; simpl.
  unfold bind at 1, log, modify; simpl.
  destruct (json_loads rt s) as [doc|]; simpl; [|done].
  unfold bind at 1, lift at 1.
  destruct (py_contains CONTENT_SCENES_PATH_FIELD doc) as [[|]|e]; simpl; [| |done].
  - unfold bind at 1 2, lift at 1.
    destruct (py_getitem doc CONTENT_SCENES_PATH_FIELD) as [v|e]; simpl; [|done].
    unfold bind at 1, lift at 1.
    destruct (py_getitem doc "episodes") as [v'|e]; simpl; [|done].
    unfold bind at 1, lift at 1.
    destruct (py_iter v') as [items|e]; simpl; [|done].
    by rewrite for_each_parse.
  - unfold bind at 1 2, lift at 1, ret.
    destruct (py_getitem doc "episodes") as [v'|e]; simpl; [|done].
    unfold bind at 1, lift at 1.
    destruct (py_iter v') as [items|e]; simpl; [|done].
    by rewrite for_each_parse.
Qed.

Lemma from_json_pure_frame rt hab s sd eps csp :
  from_json_pure rt hab s sd (mkDataset eps csp) =
    let run := from_json_pure rt hab s sd (mkDataset [] csp) in
    (run.1, mkDataset (eps ++ episodes run.2) (content_scenes_path run.2)).
Proof.
  unfold from_json_pure; simpl.
  destruct (json_loads rt s) as [doc|]; simpl; [|by rewrite app_nil_r].
  destruct (doc_template doc) as [t|e]; simpl; [|by rewrite app_nil_r].
  destruct (doc_items doc) as [items|e]; simpl; [done|by rewrite app_nil_r].
Qed.

Lemma from_json_framed rt hab s sd : framed (from_json rt hab s sd).
Proof.
  intros [[eps csp] tr]. rewrite !from_json_eq. unfold transport, blank; simpl.
  by rewrite from_json_pure_frame.
Qed.

Lemma load_scene_eq rt hab dir sd scene st :
  load_scene rt hab dir sd scene st =
    match format_template rt (content_scenes_path (self st))
            [("data_path", dir); ("scene", scene)] with
    | Raise e => (Raise e, st)
    | Ok scene_filename =>
        let st' := mkState (self st) (trace st ++ [gzip_open_call scene_filename]) in
        match gzip_read rt scene_filename with
        | Raise e => (Raise e, st')
        | Ok text => from_json rt hab text sd st'
        end
    end.
Proof.
  unfold load_scene, gzip_read_io. monad_unfold.
  destruct (format_template rt _ _) as [fname|e]; simpl; [|done].
  by destruct (gzip_read rt fname).
Qed.

Lemma load_scene_framed rt hab dir sd scene : framed (load_scene rt hab dir sd scene).
Proof.
  intros [[eps csp] tr]. rewrite !load_scene_eq. unfold transport, blank; simpl.
  destruct (format_template rt csp _) as [fname|e]; simpl; [|by rewrite !app_nil_r].
  destruct (gzip_read rt fname) as [text|e]; simpl; [|by rewrite app_nil_r].
  rewrite !from_json_eq; simpl. rewrite from_json_pure_frame; simpl.
  by rewrite <- !app_assoc.
Qed.

Lemma for_each_load_scene rt hab template dir sd scenes eps tr :
  Forall (shard_ok rt hab template dir sd) scenes →
  for_each scenes (load_scene rt hab dir sd) (mkState (mkDataset eps (PStr template)) tr)
  = (Ok tt,
     mkState (mkDataset (eps ++ concat (shard_episodes rt hab template dir sd <$> scenes))
                        (PStr template))
             (tr ++ concat (shard_trace rt hab template dir sd <$> scenes))).
Proof.
  intros Hok. revert eps tr.
  induction Hok as [|scene scenes [Hrun Htmpl] _ IH]; intros eps tr; simpl.
  - by rewrite !app_nil_r.
  - unfold bind. rewrite load_scene_framed. unfold transport; simpl.
    fold (shard_run rt hab template dir sd scene).
    rewrite Hrun, Htmpl. rewrite IH. unfold shard_episodes, shard_trace.
    by rewrite <- !app_assoc.
Qed.

Lemma split_go_head sep skip cur l : is_Some (Str.split_go sep skip cur l !! 0).
Proof.
  revert skip cur. induction l as [|c l IH]; intros skip cur; simpl; [by eexists|].
  destruct skip; [|apply IH].
  case_bool_decide; simpl; [by eexists|apply IH].
Qed.

Lemma split_head s sep : is_Some (Str.split s sep !! 0).
Proof.
  unfold Str.split. rewrite list_lookup_fmap.
  by destruct (split_go_head (Str.chars sep) 0 [] (Str.chars s)) as [x ->].
Qed.

Lemma has_individual_scene_files_eq rt template dir prefix content_dir tr :
  Str.split template "{scene}" !! 0 = Some prefix →
  str_format rt prefix [("data_path", dir)] = Ok content_dir →
  has_individual_scene_files rt (PStr template) dir tr
  = (Ok (os_path_exists rt content_dir), tr ++ [os_path_exists_call content_dir]).
Proof.
  intros Hsplit Hfmt. unfold has_individual_scene_files; simpl.
  unfold bind at 1, lift at 1; simpl.
  unfold bind at 1, lift at 1, index. rewrite Hsplit; simpl.
  unfold bind at 1, lift at 1. rewrite Hfmt; simpl. done.
Qed.

Lemma get_scenes_from_folder_eq rt template dir prefix suffix content_dir tr :
  Str.split template "{scene}" !! 0 = Some prefix →
  Str.split template "{scene}" !! 1 = Some suffix →
  str_format rt prefix [("data_path", dir)] = Ok content_dir →
  _get_scenes_from_folder rt (PStr template) dir tr =
    if os_path_exists rt content_dir then
      match os_listdir rt content_dir with
      | Ok filenames =>
          (Ok (merge_sort String.le (available_scenes suffix filenames)),
           tr ++ [os_path_exists_call content_dir; os_listdir_call content_dir])
      | Raise e =>
          (Raise e, tr ++ [os_path_exists_call content_dir; os_listdir_call content_dir])
      end
    else (Ok [], tr ++ [os_path_exists_call content_dir]).
Proof.
  intros H0 H1 Hfmt. unfold _get_scenes_from_folder; simpl.
  unfold bind at 1, lift at 1; simpl.
  unfold bind at 1, lift at 1, index. rewrite H0; simpl.
  unfold bind at 1, lift at 1; simpl.
  unfold bind at 1, lift at 1. rewrite H1; simpl.
  unfold bind at 1, lift at 1. rewrite Hfmt; simpl.
  unfold bind at 1, os_path_exists_io. unfold bind at 1, log, modify, ret; simpl.
  destruct (os_path_exists rt content_dir); simpl; [|done].
  unfold bind at 1, os_listdir_io. unfold bind at 1, lift; simpl.
  rewrite <- app_assoc; simpl.
  destruct (os_listdir rt content_dir); simpl; done.
Qed.

(** The loader on a sharded layout, up to the choice of the scenes. *)
Lemma init_sharded rt hab cfg dfp text st0 template content_dir tr :
  sharded_layout rt hab cfg dfp text st0 template content_dir →
  __init__ rt hab (Some cfg) (fresh tr) =
    (scenes <-
       (if bool_decide (ALL_SCENES_MASK hab ∈ content_scenes cfg) then
          io (_get_scenes_from_folder rt (PStr template) (posixpath.dirname dfp))
        else ret (content_scenes cfg)) ;;
     for_each scenes (load_scene rt hab (posixpath.dirname dfp) (scenes_dir cfg)))
      (mkState (mkDataset (episodes (self st0)) (PStr template))
               (tr ++ opening_trace dfp text content_dir)).
Proof.
  intros (Hfmt & Hread & Hjson & Htmpl & (prefix & Hsplit & Hdir) & Hexists).
  pose proof (from_json_eq rt hab text (scenes_dir cfg) (fresh [])) as Htr.
  rewrite Hjson in Htr. simpl in Htr.
  unfold __init__, set_episodes, gzip_read_io. monad_unfold.
  rewrite Hfmt; simpl. rewrite Hread; simpl.
  rewrite from_json_framed. unfold transport; simpl.
  change (blank (PStr default_content_scenes_path)) with (fresh []).
  rewrite Hjson; simpl. rewrite Htmpl.
  rewrite (has_individual_scene_files_eq _ _ _ _ _ _ Hsplit Hdir); simpl.
  rewrite Hexists; simpl.
  injection Htr as _ Hst0. rewrite Hst0; simpl.
  rewrite <- !app_assoc; simpl.
  destruct st0 as [[eps0 csp0] tr0]; simpl in *. subst csp0.
  by case_bool_decide.
Qed.

(** ** The loader on a sharded layout *)

Lemma shard_trace_eq rt hab template dir sd scene :
  shard_ok rt hab template dir sd scene →
  ∃ scene_filename text,
    shard_file rt template dir scene = Ok scene_filename ∧
    gzip_read rt scene_filename = Ok text ∧
    shard_trace rt hab template dir sd scene
      = [gzip_open_call scene_filename; json_loads_call text].
Proof.
  unfold shard_ok, shard_trace, shard_run, shard_file. rewrite load_scene_eq; simpl.
  destruct (str_format rt template _) as [fname|e]; simpl; [|by intros [? _]].
  destruct (gzip_read rt fname) as [text|e] eqn:Hread; simpl; [|by intros [? _]].
  intros _. exists fname, text. split_and!; [done..|]. by rewrite from_json_eq.
Qed.

(** C5, as amended: on a sharded layout with an empty list of requested
    scenes the loader opens no shard and raises nothing, and the dataset
    holds the episodes of the combined file, whatever they are: the trace
    ends with the layout test. *)
Theorem init_no_scenes rt hab cfg dfp text st0 template content_dir tr :
  sharded_layout rt hab cfg dfp text st0 template content_dir →
  content_scenes cfg = [] →
  __init__ rt hab (Some cfg) (fresh tr) =
    (Ok tt, mkState (mkDataset (episodes (self st0)) (PStr template))
                    (tr ++ opening_trace dfp text content_dir)).
Proof.
  intros Hlayout Hnone. rewrite (init_sharded _ _ _ _ _ _ _ _ _ Hlayout).
  rewrite Hnone. rewrite bool_decide_eq_false_2 by apply not_elem_of_nil. done.
Qed.

(** C4, as amended: on a sharded layout with a list of requested scenes
    that does not hold the sentinel, the collection is the episodes of
    the combined file followed by those of the requested shards, in the
    order requested, each shard in its own order; besides the combined
    file only the requested shards are opened, one after the other. *)
Theorem init_requested_scenes rt hab cfg dfp text st0 template content_dir tr :
  sharded_layout rt hab cfg dfp text st0 template content_dir →
  ALL_SCENES_MASK hab ∉ content_scenes cfg →
  let dir := posixpath.dirname dfp in
  let sd := scenes_dir cfg in
  Forall (shard_ok rt hab template dir sd) (content_scenes cfg) →
  __init__ rt hab (Some cfg) (fresh tr) =
    (Ok tt,
     mkState (mkDataset (episodes (self st0) ++
                         concat (shard_episodes rt hab template dir sd <$> content_scenes cfg))
                        (PStr template))
             ((tr ++ opening_trace dfp text content_dir) ++
              concat (shard_trace rt hab template dir sd <$> content_scenes cfg))) ∧
  Forall (λ scene, ∃ scene_filename shard_text,
            shard_file rt template dir scene = Ok scene_filename ∧
            gzip_read rt scene_filename = Ok shard_text ∧
            shard_trace rt hab template dir sd scene
              = [gzip_open_call scene_filename; json_loads_call shard_text])
         (content_scenes cfg).
Proof.
  intros Hlayout Hmask dir sd Hshards. split.
  - rewrite (init_sharded _ _ _ _ _ _ _ _ _ Hlayout).
    rewrite bool_decide_eq_false_2 by done.
    unfold bind, ret. by apply for_each_load_scene.
  - eapply Forall_impl; [exact Hshards|]. intros scene. apply shard_trace_eq.
Qed.

(** C3, as amended: on a sharded layout with the sentinel among the
    requested scenes, the collection is the episodes of the combined file
    followed by those of every shard found in the content directory, the
    shards taken in ascending order of their scene identifiers and each in
    its own order. *)
Theorem init_all_scenes rt hab cfg dfp text st0 template content_dir suffix filenames tr :
  sharded_layout rt hab cfg dfp text st0 template content_dir →
  Str.split template "{scene}" !! 1 = Some suffix →
  ALL_SCENES_MASK hab ∈ content_scenes cfg →
  os_listdir rt content_dir = Ok filenames →
  let dir := posixpath.dirname dfp in
  let sd := scenes_dir cfg in
  Forall (shard_ok rt hab template dir sd) (available_scenes suffix filenames) →
  ∃ scenes st,
    __init__ rt hab (Some cfg) (fresh tr) = (Ok tt, st) ∧
    scenes ≡ₚ available_scenes suffix filenames ∧
    StronglySorted String.le scenes ∧
    episodes (self st) =
      episodes (self st0) ++ concat (shard_episodes rt hab template dir sd <$> scenes).
Proof.
  intros Hlayout Hsuffix Hmask Hlist dir sd Hshards.
  exists (merge_sort String.le (available_scenes suffix filenames)).
  eexists. split; [|split; [apply merge_sort_Permutation|split;
    [apply (StronglySorted_merge_sort _)|]]].
  - rewrite (init_sharded _ _ _ _ _ _ _ _ _ Hlayout).
    rewrite bool_decide_eq_true_2 by done.
    destruct Hlayout as (_ & _ & _ & _ & (prefix & Hsplit & Hdir) & Hexists).
    unfold bind at 1, io; simpl.
    rewrite (get_scenes_from_folder_eq _ _ _ _ _ _ _ Hsplit Hsuffix Hdir).
    rewrite Hexists, Hlist; simpl.
    apply for_each_load_scene.
    by rewrite merge_sort_Permutation.
  - done.
Qed.

(** *** On the demo disk *)

Ltac by_eval := vm_compute; reflexivity.

Ltac demo_layout prefix :=
  unfold sharded_layout; split_and!; [by_eval..|exists prefix; split; by_eval|by_eval].

Ltac demo_shards :=
  repeat first [apply Forall_nil_2 | apply Forall_cons_2]; try (split; by_eval).

Lemma init_no_scenes_witness :
  let rt := Demo.runtime_of Demo.docs (Demo.sharded Demo.combined_one) in
  let cfg := Demo.config [] in
  let text := Demo.dumps Demo.combined_one in
  let st0 := (from_json rt Demo.hab text (scenes_dir cfg) (fresh [])).2 in
  sharded_layout rt Demo.hab cfg Demo.train text st0 default_content_scenes_path Demo.content ∧
  content_scenes cfg = [] ∧
  __init__ rt Demo.hab (Some cfg) (fresh []) =
    (Ok tt, mkState (mkDataset (episodes (self st0)) (PStr default_content_scenes_path))
                    ([] ++ opening_trace Demo.train text Demo.content)).
Proof.
  intros rt cfg text st0.
  assert (sharded_layout rt Demo.hab cfg Demo.train text st0
            default_content_scenes_path Demo.content) as Hlayout by demo_layout "{data_path}/content/".
  split; [exact Hlayout|]. split; [reflexivity|].
  apply (init_no_scenes rt Demo.hab cfg Demo.train text st0 _ Demo.content []);
    [exact Hlayout|reflexivity].
Defined.

(** C5, as stated, fails where the combined file lists an episode: the
    dataset then holds that episode. *)
Lemma no_scenes_keeps_combined_file :
  ¬ no_scenes_empty (Demo.runtime_of Demo.docs (Demo.sharded Demo.combined_one))
      Demo.hab (Demo.config []).
Proof.
  intros Hstated.
  destruct (Hstated Demo.train (Demo.dumps Demo.combined_one)
              (from_json (Demo.runtime_of Demo.docs (Demo.sharded Demo.combined_one))
                 Demo.hab (Demo.dumps Demo.combined_one) (Some "data/scene_datasets")
                 (fresh [])).2
              default_content_scenes_path Demo.content)
    as (st & Hrun & _ & Heps); [demo_layout "{data_path}/content/"|reflexivity|].
  vm_compute in Hrun. injection Hrun as <-. discriminate Heps.
Qed.

Lemma init_requested_scenes_witness :
  let rt := Demo.runtime_of Demo.docs (Demo.sharded Demo.combined_empty) in
  let cfg := Demo.config ["Denmark"; "Adrian"] in
  let text := Demo.dumps Demo.combined_empty in
  let st0 := (from_json rt Demo.hab text (scenes_dir cfg) (fresh [])).2 in
  let dir := posixpath.dirname Demo.train in
  let sd := scenes_dir cfg in
  sharded_layout rt Demo.hab cfg Demo.train text st0 default_content_scenes_path Demo.content ∧
  (ALL_SCENES_MASK Demo.hab ∉ content_scenes cfg) ∧
  Forall (shard_ok rt Demo.hab default_content_scenes_path dir sd) (content_scenes cfg) ∧
  episodes (self (__init__ rt Demo.hab (Some cfg) (fresh [])).2) =
    shard_episodes rt Demo.hab default_content_scenes_path dir sd "Denmark" ++
    shard_episodes rt Demo.hab default_content_scenes_path dir sd "Adrian".
Proof.
  intros rt cfg text st0 dir sd.
  assert (sharded_layout rt Demo.hab cfg Demo.train text st0
            default_content_scenes_path Demo.content) as Hlayout by demo_layout "{data_path}/content/".
  assert (ALL_SCENES_MASK Demo.hab ∉ content_scenes cfg) as Hmask by compute_done.
  assert (Forall (shard_ok rt Demo.hab default_content_scenes_path dir sd)
            (content_scenes cfg)) as Hshards by demo_shards.
  split_and!; [done..|].
  destruct (init_requested_scenes rt Demo.hab cfg Demo.train text st0 _ Demo.content []
              Hlayout Hmask Hshards) as [-> _].
  by_eval.
Defined.

(** C4, as stated, fails where the combined file lists an episode: that
    episode comes first, and it is from no shard. *)
Lemma requested_scenes_keep_combined_file :
  ¬ requested_shards_only (Demo.runtime_of Demo.docs (Demo.sharded Demo.combined_one))
      Demo.hab (Demo.config ["Denmark"]).
Proof.
  intros Hstated.
  destruct (Hstated Demo.train (Demo.dumps Demo.combined_one)
              (from_json (Demo.runtime_of Demo.docs (Demo.sharded Demo.combined_one))
                 Demo.hab (Demo.dumps Demo.combined_one) (Some "data/scene_datasets")
                 (fresh [])).2
              default_content_scenes_path Demo.content)
    as (st & Hrun & Heps); [demo_layout "{data_path}/content/"|done|compute_done|demo_shards|].
  vm_compute in Hrun. injection Hrun as <-. vm_compute in Heps. discriminate Heps.
Qed.

Lemma init_all_scenes_witness :
  let rt := Demo.runtime_of Demo.docs (Demo.sharded Demo.combined_empty) in
  let cfg := Demo.config ["*"] in
  let text := Demo.dumps Demo.combined_empty in
  let st0 := (from_json rt Demo.hab text (scenes_dir cfg) (fresh [])).2 in
  let dir := posixpath.dirname Demo.train in
  let sd := scenes_dir cfg in
  let filenames := ["Denmark.json.gz"; "notes.txt"; "Adrian.json.gz"] in
  sharded_layout rt Demo.hab cfg Demo.train text st0 default_content_scenes_path Demo.content ∧
  Str.split default_content_scenes_path "{scene}" !! 1 = Some ".json.gz" ∧
  ALL_SCENES_MASK Demo.hab ∈ content_scenes cfg ∧
  os_listdir rt Demo.content = Ok filenames ∧
  Forall (shard_ok rt Demo.hab default_content_scenes_path dir sd)
    (available_scenes ".json.gz" filenames) ∧
  ∃ scenes st,
    __init__ rt Demo.hab (Some cfg) (fresh []) = (Ok tt, st) ∧
    scenes ≡ₚ available_scenes ".json.gz" filenames ∧
    StronglySorted String.le scenes ∧
    episodes (self st) =
      episodes (self st0) ++
      concat (shard_episodes rt Demo.hab default_content_scenes_path dir sd <$> scenes).
Proof.
  intros rt cfg text st0 dir sd filenames.
  assert (sharded_layout rt Demo.hab cfg Demo.train text st0
            default_content_scenes_path Demo.content) as Hlayout by demo_layout "{data_path}/content/".
  assert (ALL_SCENES_MASK Demo.hab ∈ content_scenes cfg) as Hmask by compute_done.
  assert (Forall (shard_ok rt Demo.hab default_content_scenes_path dir sd)
            (available_scenes ".json.gz" filenames)) as Hshards.
  { change (available_scenes ".json.gz" filenames)
      with (strip_suffix ".json.gz" <$> ["Denmark.json.gz"; "Adrian.json.gz"]).
    demo_shards. }
  split_and!; [done..|].
  exact (init_all_scenes rt Demo.hab cfg Demo.train text st0 _ Demo.content ".json.gz"
           filenames [] Hlayout eq_refl Hmask eq_refl Hshards).
Defined.

(** C3, as stated, fails where the combined file lists an episode: the
    collection is one episode longer than the shards taken together. *)
Lemma all_scenes_keep_combined_file :
  ¬ all_scenes_shards_only (Demo.runtime_of Demo.docs (Demo.sharded Demo.combined_one))
      Demo.hab (Demo.config ["*"]).
Proof.
  intros Hstated.
  destruct (Hstated Demo.train (Demo.dumps Demo.combined_one)
              (from_json (Demo.runtime_of Demo.docs (Demo.sharded Demo.combined_one))
                 Demo.hab (Demo.dumps Demo.combined_one) (Some "data/scene_datasets")
                 (fresh [])).2
              default_content_scenes_path Demo.content ".json.gz"
              ["Denmark.json.gz"; "notes.txt"; "Adrian.json.gz"])
    as (scenes & st & Hrun & Hperm & _ & Heps);
    [demo_layout "{data_path}/content/"|reflexivity|compute_done|reflexivity| |].
  { change (available_scenes ".json.gz" _)
      with (strip_suffix ".json.gz" <$> ["Denmark.json.gz"; "Adrian.json.gz"]).
    demo_shards. }
  apply (f_equal length) in Heps. rewrite Hperm in Heps.
  vm_compute in Hrun. injection Hrun as <-. vm_compute in Heps. discriminate Heps.
Qed.

(** ** Construction without a configuration, and on a missing directory *)

(** C10: without a configuration the constructor returns normally, the
    collection is empty, and the trace is what it was: no call reached
    the filesystem. *)
Theorem init_no_config rt hab st :
  __init__ rt hab None st =
    (Ok tt, mkState (mkDataset [] (content_scenes_path (self st))) (trace st)).
Proof. reflexivity. Qed.



(** Where nothing is installed the path is reported missing, and both
    raise [FileNotFoundError]. *)
Example missing_directory_nothing_installed :
  let rt := Demo.runtime_of Demo.docs Demo.nothing in
  os_path_exists rt (posixpath.dirname Demo.train) = false ∧
  (__init__ rt Demo.hab (Some (Demo.config ["*"])) (fresh [])).1 = Raise FileNotFoundError ∧
  (get_scenes_to_load rt Demo.hab (Demo.config ["*"]) []).1 = Raise FileNotFoundError.
Proof. split_and!; by_eval. Qed.


(** ** The path rewrite *)

(** C9: with the asset root ["data/scene_datasets"], the scene path
    ["data/scene_datasets/gibson/Adrian.glb"] is rewritten to itself, by
    the rewrite on its own and within the parse of an episode. *)
Theorem adrian_round_trip :
  rewrite_scene_id "data/scene_datasets" "data/scene_datasets/gibson/Adrian.glb"
    = "data/scene_datasets/gibson/Adrian.glb" ∧
  ∃ e, parse_episode Demo.hab (Some "data/scene_datasets")
         (Demo.episode "0" "data/scene_datasets/gibson/Adrian.glb") = Ok e ∧
       scene_id e = PStr "data/scene_datasets/gibson/Adrian.glb".
Proof. split; [by_eval|]. eexists. split; by_eval. Qed.

(** *** What a parsed episode carries *)

Lemma parse_episode_scene_id hab sd item e :
  parse_episode hab sd item = Ok e →
  ∃ kw given, item = PDict kw ∧ dict_get kw "scene_id" = Some given ∧
    rewritten sd given (scene_id e).
Proof.
  unfold parse_episode. destruct item as [| | | | |kw|]; simpl; try done.
  unfold NavigationEpisode_init. case_bool_decide; simpl; [|done].
  destruct (dict_get kw "episode_id"); simpl; [|done].
  destruct (dict_get kw "scene_id") as [given|] eqn:Hgiven; simpl; [|done].
  destruct (dict_get kw "start_position"); simpl; [|done].
  destruct (dict_get kw "start_rotation"); simpl; [|done].
  destruct (dict_get kw "goals"); simpl; [|done].
  intros Hrest. exists kw, given. split_and!; [done..|].
  destruct sd as [root|]; simpl in *.
  - destruct given as [| | |s| | |]; simpl in *; try done.
    destruct (convert_items _ _); simpl in *; [|done].
    destruct (convert_paths _ _); simpl in *; [|done].
    injection Hrest as <-. by exists s.
  - destruct (convert_items _ _); simpl in *; [|done].
    destruct (convert_paths _ _); simpl in *; [|done].
    by injection Hrest as <-.
Qed.

Lemma parse_prefix_Forall2 hab sd items (R : pyobj → NavigationEpisode → Prop) :
  (∀ item e, parse_episode hab sd item = Ok e → R item e) →
  Forall2 R (take (length (parse_prefix hab sd items).1) items) (parse_prefix hab sd items).1.
Proof.
  intros HR. induction items as [|item rest IH]; simpl; [constructor|].
  destruct (parse_episode hab sd item) as [e|err] eqn:Hitem; simpl; [|constructor].
  constructor; [by apply HR|done].
Qed.

Lemma parse_prefix_complete hab sd items :
  (parse_prefix hab sd items).2 = Ok tt →
  length (parse_prefix hab sd items).1 = length items.
Proof.
  induction items as [|item rest IH]; simpl; [done|].
  destruct (parse_episode hab sd item); simpl; [|done]. intros. f_equal. auto.
Qed.

(** C8: every episode a call of [from_json] appends comes from an object
    of the document, in document order, and its [scene_id] is the given
    one when no asset root is supplied; with an asset root, it is the root
    joined with the given path, the default prefix taken off exactly when
    the path starts with it.  When the call returns normally every object
    of the document has its episode. *)
Theorem scene_id_rewrite rt hab text sd st :
  ∃ appended,
    episodes (self (from_json rt hab text sd st).2) = episodes (self st) ++ appended ∧
    Forall2 (λ item e, ∃ kw given,
               item = PDict kw ∧ dict_get kw "scene_id" = Some given ∧
               rewritten sd given (scene_id e))
            (take (length appended) (decoded_items rt text)) appended ∧
    ((from_json rt hab text sd st).1 = Ok tt →
     length appended = length (decoded_items rt text)).
Proof.
  rewrite from_json_eq; simpl. unfold from_json_pure, decoded_items.
  destruct (json_loads rt text) as [doc|]; simpl;
    [|exists []; rewrite app_nil_r; split_and!; [done|constructor|done]].
  destruct (doc_template doc) as [t|e]; simpl.
  - destruct (doc_items doc) as [items|e]; simpl;
      [|exists []; rewrite app_nil_r; split_and!; [done|constructor|done]].
    exists (parse_prefix hab sd items).1. split_and!; [done| |].
    + apply parse_prefix_Forall2, parse_episode_scene_id.
    + apply parse_prefix_complete.
  - exists []. rewrite app_nil_r. split_and!; [done|constructor|done].
Qed.

(** The demo shard of Adrian, parsed with and without an asset root. *)
Example scene_id_rewrite_adrian :
  scene_id <$> episodes (self (from_json (Demo.runtime_of Demo.docs Demo.nothing) Demo.hab
      (Demo.dumps Demo.shard_adrian) (Some "/assets") (fresh [])).2)
    = [PStr "/assets/gibson/Adrian.glb"; PStr "/assets/gibson/Adrian.glb"] ∧
  scene_id <$> episodes (self (from_json (Demo.runtime_of Demo.docs Demo.nothing) Demo.hab
      (Demo.dumps Demo.shard_adrian) None (fresh [])).2)
    = [PStr Demo.adrian; PStr Demo.adrian].
Proof. split; by_eval. Qed.

(** ** Failing parses *)

Lemma missing_required_raises hab sd item :
  missing_required item → parse_episode hab sd item = Raise TypeError.
Proof.
  destruct item as [| | | | |kw|]; simpl; try done.
  intros (k & Hk & Hnone). unfold parse_episode, NavigationEpisode_init; simpl.
  case_bool_decide; simpl; [|done].
  unfold episode_required in Hk.
  repeat (apply elem_of_cons in Hk as [->|Hk]; [by rewrite Hnone; repeat case_match|]).
  by apply elem_of_nil in Hk.
Qed.

Lemma rmapM_error {A B} (f : A → result B) (P : exn → Prop) l e :
  (∀ x e, f x = Raise e → P e) → rmapM f l = Raise e → P e.
Proof.
  intros Hf. induction l as [|x l IH]; simpl; [done|].
  destruct (f x) as [y|e'] eqn:Hx; simpl; [|intros [= <-]; eauto].
  destruct (rmapM f l); simpl; [done|]. intros [= <-]. auto.
Qed.

Lemma convert_from_error ctor items i container e :
  raises_deserialization ctor →
  match container with PList l => i + length items ≤ length l | _ => True end →
  convert_from ctor i items container = Raise e →
  is_DeserializationError e = true.
Proof.
  intros Hctor. revert i container.
  induction items as [|item rest IH]; intros i container Hlen; simpl; [done|].
  destruct (py_kwargs item) as [kw|e'] eqn:Hkw; simpl.
  - destruct (ctor kw) as [v|e'] eqn:Hv; simpl; [|intros [= <-]; eauto].
    destruct container as [| | | |l| |]; simpl; try by intros [= <-].
    simpl in Hlen. rewrite bool_decide_eq_true_2 by lia. simpl.
    apply IH. rewrite length_insert. lia.
  - destruct item; simplify_eq/=; by intros [= <-].
Qed.

Lemma convert_items_error ctor container e :
  raises_deserialization ctor →
  convert_items ctor container = Raise e →
  is_DeserializationError e = true.
Proof.
  intros Hctor. unfold convert_items.
  destruct container as [| | |s|l|d|]; simpl; try by intros [= <-].
  all: by apply convert_from_error.
Qed.

Lemma convert_paths_error hab paths e :
  raises_deserialization (ShortestPathPoint hab) →
  convert_paths hab paths = Raise e →
  is_DeserializationError e = true.
Proof.
  intros Hctor. unfold convert_paths.
  assert (∀ items, (let? items' := rmapM (convert_items (ShortestPathPoint hab)) items in
                    Ok (match paths with PList _ => PList items' | _ => paths end)) = Raise e →
                   is_DeserializationError e = true) as Hmap.
  { intros items. destruct (rmapM _ items) as [items'|e'] eqn:Hitems; simpl; [done|].
    intros [= <-].
    eapply (rmapM_error _ (λ x, is_DeserializationError x = true)); [|exact Hitems].
    intros x e0 Hx. by eapply convert_items_error. }
  destruct paths as [| | |s|l|d|]; simpl; try done; try by intros [= <-].
  all: apply Hmap.
Qed.

Lemma parse_episode_error hab sd item e :
  raises_deserialization (NavigationGoal hab) →
  raises_deserialization (ShortestPathPoint hab) →
  parse_episode hab sd item = Raise e →
  is_DeserializationError e = true.
Proof.
  intros Hgoal Hpoint. unfold parse_episode.
  destruct (py_kwargs item) as [kw|e'] eqn:Hkw; simpl;
    [|destruct item; simplify_eq/=; by intros [= <-]].
  destruct (NavigationEpisode_init kw) as [ep|e'] eqn:Hinit; simpl.
  2:{ unfold NavigationEpisode_init in Hinit.
      repeat case_match; simplify_eq; by intros [= <-]. }
  assert (∀ ep', (let? gs := convert_items (NavigationGoal hab) (goals ep') in
                  let? ps := convert_paths hab (shortest_paths (set_goals gs ep')) in
                  Ok (set_shortest_paths ps (set_goals gs ep'))) = Raise e →
                 is_DeserializationError e = true) as Hrest.
  { intros ep'. destruct (convert_items _ (goals ep')) as [gs|e'] eqn:Hgs; simpl.
    - destruct (convert_paths hab _) as [ps|e'] eqn:Hps; simpl; [done|].
      intros [= <-]. exact (convert_paths_error _ _ _ Hpoint Hps).
    - intros [= <-]. exact (convert_items_error _ _ _ Hgoal Hgs). }
  destruct sd as [root|]; simpl; [|apply Hrest].
  destruct (scene_id ep) as [| | |s| | |]; simpl; try (by intros [= <-]).
  apply (Hrest (set_scene_id (PStr (rewrite_scene_id root s)) ep)).
Qed.

Lemma parse_prefix_stop hab sd items e :
  (parse_prefix hab sd items).2 = Raise e →
  ∃ parsed item rest,
    items = parsed ++ item :: rest ∧
    rmapM (parse_episode hab sd) parsed = Ok (parse_prefix hab sd items).1 ∧
    parse_episode hab sd item = Raise e.
Proof.
  induction items as [|item rest IH]; simpl; [done|].
  destruct (parse_episode hab sd item) as [ep|e'] eqn:Hitem; simpl.
  - intros (parsed & item' & rest' & -> & Hparsed & Hfail)%IH.
    exists (item :: parsed), item', rest'. split_and!; [done| |done].
    simpl. by rewrite Hitem, Hparsed.
  - intros [= <-]. by exists [], item, rest.
Qed.

Lemma parse_prefix_fails hab sd items item e0 :
  item ∈ items → parse_episode hab sd item = Raise e0 →
  ∃ e, (parse_prefix hab sd items).2 = Raise e.
Proof.
  intros Hin Hfail. induction Hin as [item rest|item item' rest _ IH]; simpl.
  - rewrite Hfail. by eexists.
  - destruct (parse_episode hab sd item'); simpl; [auto|by eexists].
Qed.

Lemma doc_template_dict d :
  doc_template (PDict d) = Ok (dict_get d CONTENT_SCENES_PATH_FIELD).
Proof.
  unfold doc_template; simpl. case_bool_decide as Hsome; simpl.
  - by destruct Hsome as [v ->].
  - by destruct (dict_get d CONTENT_SCENES_PATH_FIELD); [destruct Hsome; eauto|].
Qed.

(** C1, as amended: malformed JSON makes the parse raise with the dataset
    untouched.  An episode object that lacks a required field makes the
    parse raise as well, at the first object of the document that cannot
    be turned into an episode; the episodes of the objects before that one
    have been appended by then, and nothing else.  In both cases the
    exception is a deserialization error. *)
Theorem from_json_failure rt hab text sd st :
  raises_deserialization (NavigationGoal hab) →
  raises_deserialization (ShortestPathPoint hab) →
  malformed rt text ∨ lacks_field rt text →
  ∃ e st',
    from_json rt hab text sd st = (Raise e, st') ∧
    is_DeserializationError e = true ∧
    (malformed rt text → self st' = self st) ∧
    (lacks_field rt text →
     ∃ parsed item rest appended,
       decoded_items rt text = parsed ++ item :: rest ∧
       rmapM (parse_episode hab sd) parsed = Ok appended ∧
       parse_episode hab sd item = Raise e ∧
       episodes (self st') = episodes (self st) ++ appended).
Proof.
  intros Hgoal Hpoint Hbad. rewrite from_json_eq; simpl.
  unfold from_json_pure, decoded_items, malformed, lacks_field.
  destruct Hbad as [Hmal|(d & items & item & Hdoc & Heps & Hin & Hmiss)].
  - rewrite Hmal; simpl. eexists _, _. split_and!; [done..|].
    intros (? & ? & ? & ? & _); done.
  - rewrite Hdoc, doc_template_dict; simpl.
    unfold doc_items; simpl. rewrite Heps; simpl.
    destruct (parse_prefix_fails hab sd items item TypeError Hin
                (missing_required_raises hab sd item Hmiss)) as [e He].
    rewrite He. destruct (parse_prefix_stop _ _ _ _ He)
      as (parsed & item' & rest & Hitems & Hparsed & Hfail).
    eexists _, _. split_and!; [done| |done|].
    + by eapply parse_episode_error.
    + intros _. by exists parsed, item', rest, (parse_prefix hab sd items).1.
Qed.

Lemma demo_make_raises cls required : raises_deserialization (Demo.make cls required).
Proof. intros kw e. unfold Demo.make. case_bool_decide; [done|]. by intros [= <-]. Qed.

Lemma truncated_lacks_field :
  lacks_field (Demo.runtime_of Demo.docs Demo.nothing) (Demo.dumps Demo.truncated).
Proof.
  exists [("episodes", PList [Demo.episode "t0" Demo.adrian; PDict [("episode_id", PStr "t1")]])],
    [Demo.episode "t0" Demo.adrian; PDict [("episode_id", PStr "t1")]],
    (PDict [("episode_id", PStr "t1")]).
  split_and!; [by_eval|by_eval|rewrite !elem_of_cons; auto|].
  exists "scene_id". split; [compute_done|reflexivity].
Qed.

Lemma from_json_failure_witness :
  let rt := Demo.runtime_of Demo.docs Demo.nothing in
  let text := Demo.dumps Demo.truncated in
  raises_deserialization (NavigationGoal Demo.hab) ∧
  raises_deserialization (ShortestPathPoint Demo.hab) ∧
  (malformed rt text ∨ lacks_field rt text) ∧
  ∃ e st',
    from_json rt Demo.hab text None (fresh []) = (Raise e, st') ∧
    is_DeserializationError e = true ∧
    (malformed rt text → self st' = self (fresh [])) ∧
    (lacks_field rt text →
     ∃ parsed item rest appended,
       decoded_items rt text = parsed ++ item :: rest ∧
       rmapM (parse_episode Demo.hab None) parsed = Ok appended ∧
       parse_episode Demo.hab None item = Raise e ∧
       episodes (self st') = episodes (self (fresh [])) ++ appended).
Proof.
  intros rt text.
  pose proof (demo_make_raises "NavigationGoal" ["position"]) as Hgoal.
  pose proof (demo_make_raises "ShortestPathPoint" ["position"; "rotation"]) as Hpoint.
  pose proof (or_intror (malformed rt text) truncated_lacks_field) as Hbad.
  split_and!; [exact Hgoal|exact Hpoint|exact Hbad|].
  exact (from_json_failure rt Demo.hab text None (fresh []) Hgoal Hpoint Hbad).
Defined.

(** Malformed text: the dataset is untouched. *)
Example from_json_malformed :
  from_json (Demo.runtime_of Demo.docs Demo.nothing) Demo.hab "{" None (fresh [])
    = (Raise JSONDecodeError, fresh [json_loads_call "{"]).
Proof. by_eval. Qed.

(** C1, as stated, fails on a document whose second episode lacks its
    [scene_id]: the parse raises, and the first episode stays appended. *)
Lemma truncated_document_appends :
  ¬ no_partial_append (Demo.runtime_of Demo.docs Demo.nothing) Demo.hab
      (Demo.dumps Demo.truncated) None (fresh []).
Proof.
  intros Hstated.
  destruct Hstated as (e & st' & Hrun & _ & Heps); [right; apply truncated_lacks_field|].
  vm_compute in Hrun. injection Hrun as _ <-. discriminate Heps.
Qed.

(** ** Templates across documents *)

Lemma from_json_pure_outcome rt hab text sd d d' :
  (from_json_pure rt hab text sd d).1 = (from_json_pure rt hab text sd d').1.
Proof.
  unfold from_json_pure.
  destruct (json_loads rt text) as [doc|]; simpl; [|done].
  destruct (doc_template doc) as [t|e]; simpl; [|done].
  by destruct (doc_items doc).
Qed.

Lemma from_json_pure_template rt hab text sd d :
  (from_json_pure rt hab text sd d).1 = Ok tt →
  content_scenes_path (from_json_pure rt hab text sd d).2
    = default (content_scenes_path d) (declared_template rt text).
Proof.
  unfold from_json_pure, declared_template.
  destruct (json_loads rt text) as [doc|]; simpl; [|done].
  destruct doc as [| | |s|l|entries|]; try done.
  - unfold doc_template; simpl. by destruct (Str.contains s _).
  - unfold doc_template; simpl. by destruct (existsb _ l).
  - rewrite doc_template_dict; simpl. by destruct (doc_items _).
Qed.

Lemma last_declared_cons rt text texts (template : pyobj) :
  default (default template (declared_template rt text)) (last_declared rt texts)
    = default template (last_declared rt (text :: texts)).
Proof.
  unfold last_declared; simpl.
  destruct (declared_template rt text) as [t|]; simpl; [|done].
  rewrite last_cons. by destruct (last _).
Qed.

(** C2, as amended: when each of a sequence of documents parses, parsing
    them into one dataset leaves the template equal to the one declared
    by the last document that declares one, and unchanged when none does:
    each declaring document replaces the template in effect. *)
Theorem last_template_wins rt hab texts sd st :
  Forall (parses rt hab sd) texts →
  ∃ st',
    parse_all rt hab texts sd st = (Ok tt, st') ∧
    content_scenes_path (self st') =
      default (content_scenes_path (self st)) (last_declared rt texts).
Proof.
  intros Hparse. revert st.
  induction Hparse as [|text texts Htext _ IH]; intros st; simpl.
  - by exists st.
  - unfold parse_all; simpl. unfold bind. rewrite from_json_eq; simpl.
    unfold parses in Htext. rewrite from_json_eq in Htext; simpl in Htext.
    rewrite (from_json_pure_outcome _ _ _ _ _ (self st)) in Htext.
    rewrite Htext.
    destruct (IH (mkState (from_json_pure rt hab text sd (self st)).2
                          (trace st ++ [json_loads_call text]))) as (st' & Hrun & Htmpl).
    exists st'. split; [exact Hrun|].
    rewrite Htmpl; simpl. rewrite from_json_pure_template by done.
    apply last_declared_cons.
Qed.

Lemma last_template_wins_witness :
  let rt := Demo.runtime_of Demo.docs Demo.nothing in
  let texts := [Demo.dumps (Demo.declaring Demo.first_template);
                Demo.dumps Demo.shard_adrian;
                Demo.dumps (Demo.declaring Demo.second_template);
                Demo.dumps Demo.shard_denmark] in
  Forall (parses rt Demo.hab None) texts ∧
  ∃ st',
    parse_all rt Demo.hab texts None (fresh []) = (Ok tt, st') ∧
    content_scenes_path (self st') = PStr Demo.second_template.
Proof.
  intros rt texts.
  assert (Forall (parses rt Demo.hab None) texts) as Hparse
    by (repeat first [apply Forall_nil_2 | apply Forall_cons_2]; by_eval).
  split; [exact Hparse|].
  destruct (last_template_wins rt Demo.hab texts None (fresh []) Hparse)
    as (st' & Hrun & Htmpl).
  exists st'. split; [exact Hrun|]. rewrite Htmpl. by_eval.
Defined.

(** C2, as stated, fails on two documents that declare different
    templates: the second one is in effect afterwards. *)
Lemma second_template_replaces_first :
  ¬ first_template_wins (Demo.runtime_of Demo.docs Demo.nothing) Demo.hab
      [Demo.dumps (Demo.declaring Demo.first_template);
       Demo.dumps (Demo.declaring Demo.second_template)] None (fresh []).
Proof.
  intros Hstated.
  destruct Hstated as (st' & Hrun & Htmpl);
    [repeat first [apply Forall_nil_2 | apply Forall_cons_2]; by_eval|].
  vm_compute in Hrun. injection Hrun as <-. vm_compute in Htmpl. discriminate Htmpl.
Qed.

(** ** Scene discovery *)

Lemma chars_app a b : Str.chars (a +:+ b) = Str.chars a ++ Str.chars b.
Proof. induction a as [|c a IH]; simpl; [done|]. by rewrite IH. Qed.

Lemma length_chars s : length (Str.chars s) = String.length s.
Proof. induction s as [|c s IH]; simpl; [done|]. by rewrite IH. Qed.

Lemma of_chars_chars s : Str.of_chars (Str.chars s) = s.
Proof. apply String.string_of_list_ascii_of_string. Qed.

Lemma chars_of_chars l : Str.chars (Str.of_chars l) = l.
Proof. apply String.list_ascii_of_string_of_list_ascii. Qed.

Lemma endswith_app f suffix :
  Str.endswith f suffix = true ↔ ∃ scene, f = scene +:+ suffix.
Proof.
  unfold Str.endswith. rewrite bool_decide_eq_true. split.
  - intros [k Hk]. exists (Str.of_chars k).
    rewrite <- (of_chars_chars f), Hk, <- (chars_of_chars k) at 1.
    by rewrite <- chars_app, of_chars_chars.
  - intros [scene ->]. exists (Str.chars scene). apply chars_app.
Qed.

Lemma strip_suffix_app scene suffix :
  suffix ≠ "" → strip_suffix suffix (scene +:+ suffix) = scene.
Proof.
  intros Hne. unfold strip_suffix, Str.slice_upto.
  assert (0 < String.length suffix) by (destruct suffix; [done|simpl; lia]).
  rewrite bool_decide_eq_true_2 by lia.
  rewrite <- !length_chars, chars_app, length_app.
  replace (Z.to_nat _) with (length (Str.chars scene)) by lia.
  by rewrite take_app_length, of_chars_chars.
Qed.

Lemma available_scenes_elem suffix filenames scene :
  suffix ≠ "" →
  scene ∈ available_scenes suffix filenames ↔ scene +:+ suffix ∈ filenames.
Proof.
  intros Hne. unfold available_scenes. rewrite list_elem_of_fmap. split.
  - intros (f & -> & [Hends Hin]%list_elem_of_filter).
    apply endswith_app in Hends as [scene ->]. by rewrite strip_suffix_app.
  - intros Hin. exists (scene +:+ suffix). split; [by rewrite strip_suffix_app|].
    apply list_elem_of_filter. split; [|done]. apply endswith_app. by exists scene.
Qed.

Lemma available_scenes_NoDup suffix filenames :
  suffix ≠ "" → NoDup filenames → NoDup (available_scenes suffix filenames).
Proof.
  intros Hne Hnodup. unfold available_scenes.
  apply NoDup_fmap_2_strong; [|by apply NoDup_filter].
  intros f g [Hf _]%list_elem_of_filter [Hg _]%list_elem_of_filter.
  apply endswith_app in Hf as [s ->]. apply endswith_app in Hg as [s' ->].
  rewrite !strip_suffix_app by done. by intros ->.
Qed.

(** X11: scene discovery for a template whose part after the scene token is
    not empty: nothing when the content directory is missing, and otherwise the
    ascending list of the identifiers [scene] such that [scene] followed by
    that suffix is an entry of the directory, each listed once as long as
    the entries are. *)
Lemma get_scenes_from_folder_spec rt template dir prefix suffix content_dir tr :
  Str.split template "{scene}" !! 0 = Some prefix →
  Str.split template "{scene}" !! 1 = Some suffix →
  suffix ≠ "" →
  str_format rt prefix [("data_path", dir)] = Ok content_dir →
  (os_path_exists rt content_dir = false →
   _get_scenes_from_folder rt (PStr template) dir tr
     = (Ok [], tr ++ [os_path_exists_call content_dir])) ∧
  (∀ filenames,
     os_path_exists rt content_dir = true →
     os_listdir rt content_dir = Ok filenames →
     ∃ scenes,
       _get_scenes_from_folder rt (PStr template) dir tr
         = (Ok scenes, tr ++ [os_path_exists_call content_dir; os_listdir_call content_dir]) ∧
       StronglySorted String.le scenes ∧
       (∀ scene, scene ∈ scenes ↔ scene +:+ suffix ∈ filenames) ∧
       (NoDup filenames → NoDup scenes)).
Proof.
  intros H0 H1 Hne Hfmt.
  rewrite (get_scenes_from_folder_eq _ _ _ _ _ _ _ H0 H1 Hfmt). split.
  - by intros ->.
  - intros filenames -> ->. eexists. split_and!; [done| | |].
    + apply (StronglySorted_merge_sort _).
    + intros scene. rewrite merge_sort_Permutation. by apply available_scenes_elem.
    + intros Hnodup. rewrite merge_sort_Permutation. by apply available_scenes_NoDup.
Qed.

Lemma get_scenes_from_folder_spec_witness :
  let rt := Demo.runtime_of Demo.docs (Demo.sharded Demo.combined_empty) in
  let dir := posixpath.dirname Demo.train in
  Str.split default_content_scenes_path "{scene}" !! 0 = Some "{data_path}/content/" ∧
  Str.split default_content_scenes_path "{scene}" !! 1 = Some ".json.gz" ∧
  ".json.gz" ≠ "" ∧
  str_format rt "{data_path}/content/" [("data_path", dir)] = Ok Demo.content ∧
  os_path_exists rt Demo.content = true ∧
  os_listdir rt Demo.content = Ok ["Denmark.json.gz"; "notes.txt"; "Adrian.json.gz"] ∧
  ∃ scenes,
    _get_scenes_from_folder rt (PStr default_content_scenes_path) dir []
      = (Ok scenes, [] ++ [os_path_exists_call Demo.content; os_listdir_call Demo.content]) ∧
    StronglySorted String.le scenes ∧
    (∀ scene, scene ∈ scenes ↔
       scene +:+ ".json.gz" ∈ ["Denmark.json.gz"; "notes.txt"; "Adrian.json.gz"]) ∧
    (NoDup ["Denmark.json.gz"; "notes.txt"; "Adrian.json.gz"] → NoDup scenes).
Proof.
  intros rt dir. split_and!; [by_eval|by_eval|done|by_eval|by_eval|by_eval|].
  refine (proj2 (get_scenes_from_folder_spec rt default_content_scenes_path dir
            "{data_path}/content/" ".json.gz" Demo.content [] _ _ _ _) _ _ _);
    first [by_eval|done].
Defined.

(** C7 at a template that ends with the scene token: every entry of the
    content directory ends with the empty suffix, and the slice
    [filename[: -0]] that should take the suffix off is [filename[:0]].
    The two shards named Denmark and Adrian come out as two empty
    identifiers. *)
Theorem scenes_from_folder_empty_suffix :
  let rt := Demo.runtime_of Demo.docs Demo.bare in
  let template := "{data_path}/content/{scene}" in
  Str.split template "{scene}" = ["{data_path}/content/"; ""] ∧
  os_path_exists rt Demo.content = true ∧
  os_listdir rt Demo.content = Ok ["Denmark"; "Adrian"] ∧
  _get_scenes_from_folder rt (PStr template) (posixpath.dirname Demo.train) []
    = (Ok [""; ""], [os_path_exists_call Demo.content; os_listdir_call Demo.content]).
Proof. split_and!; by_eval. Qed.

(** ** More on from_json *)

Lemma parse_prefix_all hab sd items eps :
  rmapM (parse_episode hab sd) items = Ok eps →
  parse_prefix hab sd items = (eps, Ok tt).
Proof.
  revert eps. induction items as [|item rest IH]; intros eps; simpl.
  - by intros [= <-].
  - destruct (parse_episode hab sd item) as [e|err]; simpl; [|done].
    destruct (rmapM _ rest) as [es|err]; simpl; [|done].
    intros [= <-]. by rewrite (IH es).
Qed.

(** X1: when the document is an object whose episode list holds objects
    that all turn into episodes, [from_json] returns normally, appends
    exactly those episodes in document order, puts the declared template
    in effect when there is one, and calls nothing but [json.loads]. *)
Theorem from_json_success rt hab text sd st d items eps :
  json_loads rt text = Some (PDict d) →
  dict_get d "episodes" = Some (PList items) →
  rmapM (parse_episode hab sd) items = Ok eps →
  from_json rt hab text sd st =
    (Ok tt,
     mkState (mkDataset (episodes (self st) ++ eps)
                (default (content_scenes_path (self st))
                         (dict_get d CONTENT_SCENES_PATH_FIELD)))
             (trace st ++ [json_loads_call text])).
Proof.
  intros Hdoc Heps Hall. rewrite from_json_eq; simpl. unfold from_json_pure.
  rewrite Hdoc, doc_template_dict; simpl. unfold doc_items; simpl. rewrite Heps; simpl.
  by rewrite (parse_prefix_all _ _ _ _ Hall).
Qed.

Lemma from_json_success_witness :
  let rt := Demo.runtime_of Demo.docs Demo.nothing in
  let text := Demo.dumps Demo.shard_adrian in
  let items := [Demo.episode "a0" Demo.adrian; Demo.episode "a1" Demo.adrian] in
  ∃ eps,
    json_loads rt text = Some (PDict [("episodes", PList items)]) ∧
    dict_get [("episodes", PList items)] "episodes" = Some (PList items) ∧
    rmapM (parse_episode Demo.hab (Some "/assets")) items = Ok eps ∧
    length eps = 2 ∧
    from_json rt Demo.hab text (Some "/assets") (fresh []) =
      (Ok tt, mkState (mkDataset eps (PStr default_content_scenes_path))
                      [json_loads_call text]).
Proof.
  intros rt text items.
  destruct (rmapM (parse_episode Demo.hab (Some "/assets")) items) as [eps|e] eqn:Heps;
    [|by vm_compute in Heps].
  exists eps.
  assert (json_loads rt text = Some (PDict [("episodes", PList items)])) as Hdoc by by_eval.
  split_and!; [exact Hdoc|reflexivity|reflexivity| |].
  - vm_compute in Heps. by injection Heps as <-.
  - exact (from_json_success rt Demo.hab text (Some "/assets") (fresh []) _ items eps
             Hdoc eq_refl Heps).
Defined.

(** X2: a document that is an object without the key ["episodes"] makes
    [from_json] raise [KeyError]; no episode is appended, but a template
    the document declares has been put in effect by then. *)
Theorem from_json_missing_episodes rt hab text sd st d :
  json_loads rt text = Some (PDict d) →
  dict_get d "episodes" = None →
  from_json rt hab text sd st =
    (Raise KeyError,
     mkState (mkDataset (episodes (self st))
                (default (content_scenes_path (self st))
                         (dict_get d CONTENT_SCENES_PATH_FIELD)))
             (trace st ++ [json_loads_call text])).
Proof.
  intros Hdoc Hnone. rewrite from_json_eq; simpl. unfold from_json_pure.
  rewrite Hdoc, doc_template_dict; simpl. unfold doc_items; simpl. by rewrite Hnone.
Qed.

(** X3: a document that decodes to anything but an object (a list, a
    string, a number, a boolean, null) makes [from_json] raise
    [TypeError] and leaves the dataset as it was. *)
Theorem from_json_not_an_object rt hab text sd st doc :
  json_loads rt text = Some doc →
  (∀ d, doc ≠ PDict d) →
  from_json rt hab text sd st =
    (Raise TypeError, mkState (self st) (trace st ++ [json_loads_call text])).
Proof.
  intros Hdoc Hnot. rewrite from_json_eq; simpl. unfold from_json_pure.
  rewrite Hdoc. destruct st as [[eps csp] tr]; simpl.
  destruct doc as [| | |s|l|d|]; try done; unfold doc_template; simpl.
  - by destruct (Str.contains s _).
  - by destruct (existsb _ l).
  - by destruct (Hnot d).
Qed.

(** X4: whatever a call of [from_json] does otherwise, the template it
    leaves is the one the document declares when the document is an
    object that declares one, and the one in effect before otherwise;
    this holds for failing parses too. *)
Theorem from_json_template rt hab text sd st :
  content_scenes_path (self (from_json rt hab text sd st).2) =
    default (content_scenes_path (self st)) (declared_template rt text).
Proof.
  rewrite from_json_eq; simpl. unfold from_json_pure, declared_template.
  destruct (json_loads rt text) as [doc|]; simpl; [|done].
  destruct doc as [| | |s|l|d|]; try done.
  - unfold doc_template; simpl. by destruct (Str.contains s _).
  - unfold doc_template; simpl. by destruct (existsb _ l).
  - rewrite doc_template_dict; simpl. by destruct (doc_items _).
Qed.

Lemma from_json_missing_episodes_witness :
  let rt := Demo.runtime_of Samples.docs Demo.nothing in
  let text := Demo.dumps Samples.headless in
  let d := [("content_scenes_path", PStr Demo.first_template)] in
  json_loads rt text = Some (PDict d) ∧
  dict_get d "episodes" = None ∧
  from_json rt Demo.hab text None (fresh []) =
    (Raise KeyError,
     mkState (mkDataset [] (PStr Demo.first_template)) [json_loads_call text]).
Proof.
  intros rt text d.
  assert (json_loads rt text = Some (PDict d)) as Hdoc by by_eval.
  split_and!; [exact Hdoc|reflexivity|].
  exact (from_json_missing_episodes rt Demo.hab text None (fresh []) d Hdoc eq_refl).
Defined.

Lemma from_json_not_an_object_witness :
  let rt := Demo.runtime_of Samples.docs Demo.nothing in
  let text := Demo.dumps Samples.listing in
  json_loads rt text = Some Samples.listing ∧
  (∀ d, Samples.listing ≠ PDict d) ∧
  from_json rt Demo.hab text None (fresh []) =
    (Raise TypeError, mkState (self (fresh [])) ([] ++ [json_loads_call text])).
Proof.
  intros rt text.
  assert (json_loads rt text = Some Samples.listing) as Hdoc by by_eval.
  assert (∀ d, Samples.listing ≠ PDict d) as Hnot by done.
  split_and!; [exact Hdoc|exact Hnot|].
  exact (from_json_not_an_object rt Demo.hab text None (fresh []) _ Hdoc Hnot).
Defined.

Lemma from_json_pure_episodes rt hab text sd d template :
  episodes (from_json_pure rt hab text sd d).2
    = episodes d ++ episodes (from_json_pure rt hab text sd (mkDataset [] template)).2.
Proof.
  unfold from_json_pure.
  destruct (json_loads rt text) as [doc|]; simpl; [|by rewrite app_nil_r].
  destruct (doc_template doc) as [t|e]; simpl; [|by rewrite app_nil_r].
  destruct (doc_items doc) as [items|e]; simpl; [done|by rewrite app_nil_r].
Qed.

Lemma document_episodes_eq rt hab text sd st :
  episodes (self (from_json rt hab text sd st).2)
    = episodes (self st) ++ document_episodes rt hab text sd.
Proof.
  unfold document_episodes. rewrite !from_json_eq; simpl.
  apply from_json_pure_episodes.
Qed.

(** X5: documents compose.  When each of a sequence of documents parses,
    parsing them one after the other into a dataset returns normally and
    leaves the collection equal to the old one followed by the episodes of
    each document, in the order the documents were given; the trace grows
    by one [json.loads] call per document. *)
Theorem parse_all_concat rt hab texts sd st :
  Forall (parses rt hab sd) texts →
  ∃ st',
    parse_all rt hab texts sd st = (Ok tt, st') ∧
    episodes (self st') =
      episodes (self st) ++ concat ((λ text, document_episodes rt hab text sd) <$> texts) ∧
    trace st' = trace st ++ (json_loads_call <$> texts).
Proof.
  intros Hparse. revert st.
  induction Hparse as [|text texts Htext _ IH]; intros st; simpl.
  - exists st. by rewrite !app_nil_r.
  - unfold parse_all; simpl. unfold bind.
    destruct (from_json rt hab text sd st) as [r st1] eqn:Hrun.
    assert (r = Ok tt) as ->.
    { unfold parses in Htext. rewrite from_json_eq in Htext, Hrun; simpl in *.
      rewrite (from_json_pure_outcome _ _ _ _ _ (self st)) in Htext.
      injection Hrun as <- _. done. }
    destruct (IH st1) as (st' & Hrest & Heps & Htrace).
    exists st'. split_and!; [exact Hrest| |].
    + rewrite Heps. replace st1 with (from_json rt hab text sd st).2 by (by rewrite Hrun).
      by rewrite document_episodes_eq, <- app_assoc.
    + rewrite Htrace. replace st1 with (from_json rt hab text sd st).2 by (by rewrite Hrun).
      rewrite from_json_eq; simpl. by rewrite <- app_assoc.
Qed.

Lemma parse_all_concat_witness :
  let rt := Demo.runtime_of Demo.docs Demo.nothing in
  let texts := [Demo.dumps Demo.shard_denmark; Demo.dumps Demo.combined_empty;
                Demo.dumps Demo.shard_adrian] in
  Forall (parses rt Demo.hab None) texts ∧
  ∃ st',
    parse_all rt Demo.hab texts None (fresh []) = (Ok tt, st') ∧
    episode_id <$> episodes (self st') = [PStr "d0"; PStr "a0"; PStr "a1"].
Proof.
  intros rt texts.
  assert (Forall (parses rt Demo.hab None) texts) as Hparse
    by (repeat first [apply Forall_nil_2 | apply Forall_cons_2]; by_eval).
  split; [exact Hparse|].
  destruct (parse_all_concat rt Demo.hab texts None (fresh []) Hparse)
    as (st' & Hrun & Heps & _).
  exists st'. split; [exact Hrun|]. rewrite Heps. by_eval.
Defined.

(** ** The conversion loops *)

Lemma convert_from_map ctor items seen :
  convert_from ctor (length seen) items (PList (seen ++ items)) =
    let? converted := rmapM (construct ctor) items in
    Ok (PList (seen ++ converted)).
Proof.
  revert seen. induction items as [|item rest IH]; intros seen; simpl; [done|].
  unfold construct at 1.
  destruct (py_kwargs item) as [kw|e]; simpl; [|done].
  destruct (ctor kw) as [v|e]; simpl; [|done].
  rewrite bool_decide_eq_true_2 by (rewrite length_app; simpl; lia). simpl.
  replace (<[length seen:=v]> (seen ++ item :: rest)) with ((seen ++ [v]) ++ rest).
  2:{ rewrite insert_app_r_alt, Nat.sub_diag by lia. simpl. by rewrite <- app_assoc. }
  replace (S (length seen)) with (length (seen ++ [v])) by (rewrite length_app; simpl; lia).
  rewrite IH. destruct (rmapM (construct ctor) rest); simpl; [|done].
  by rewrite <- app_assoc.
Qed.

Lemma convert_items_map ctor items :
  convert_items ctor (PList items) =
    let? converted := rmapM (construct ctor) items in
    Ok (PList converted).
Proof. unfold convert_items; simpl. apply (convert_from_map ctor items []). Qed.

(** X6: on a list, the loop that overwrites each element in place by the
    record built from it (lines 180-181, and 184-185 for one path) is a
    map: the result holds, position by position, the record built from
    the element that was there, and the loop raises what the first
    failing construction raises. *)
Theorem convert_items_list ctor items :
  convert_items ctor (PList items) =
    let? converted := rmapM (construct ctor) items in
    Ok (PList converted).
Proof. apply convert_items_map. Qed.

Lemma rmapM_ext {A B} (f g : A → result B) l :
  (∀ x, f x = g x) → rmapM f l = rmapM g l.
Proof. intros Hfg. induction l as [|x l IH]; simpl; [done|]. by rewrite Hfg, IH. Qed.

Lemma rmapM_fmap {A B C} (f : B → result C) (g : A → B) l :
  rmapM f (g <$> l) = rmapM (f ∘ g) l.
Proof.
  induction l as [|x l IH]; [done|].
  rewrite fmap_cons. cbn [rmapM]. by rewrite IH.
Qed.

Lemma rmapM_wrap {A B C} (f : A → result B) (g : B → C) l :
  rmapM (λ x, let? y := f x in Ok (g y)) l =
    let? ys := rmapM f l in Ok (g <$> ys).
Proof.
  induction l as [|x l IH]; simpl; [done|].
  destruct (f x); simpl; [|done]. rewrite IH. by destruct (rmapM f l).
Qed.

(** X7: on shortest paths given as a list of lists of waypoint objects,
    the nested loop of lines 183-185 builds a [ShortestPathPoint] from
    every waypoint and keeps the order within each path and across paths;
    a null [shortest_paths] is left alone. *)
Theorem convert_paths_nested hab (paths : list (list pyobj)) :
  convert_paths hab PNone = Ok PNone ∧
  convert_paths hab (PList (PList <$> paths)) =
    let? converted := rmapM (rmapM (construct (ShortestPathPoint hab))) paths in
    Ok (PList (PList <$> converted)).
Proof.
  split; [done|]. unfold convert_paths. simpl.
  rewrite rmapM_fmap.
  rewrite (rmapM_ext _ (λ path, let? points := rmapM (construct (ShortestPathPoint hab)) path in
                                 Ok (PList points)))
    by (intros path; apply convert_items_map).
  rewrite rmapM_wrap. by destruct (rmapM _ paths).
Qed.

(** ** More on the path rewrite *)

Lemma startswith_app p rest : Str.startswith (p +:+ rest) p = true.
Proof.
  unfold Str.startswith. apply bool_decide_eq_true. exists (Str.chars rest). apply chars_app.
Qed.

Lemma slice_from_app p rest : Str.slice_from (String.length p) (p +:+ rest) = rest.
Proof.
  unfold Str.slice_from. rewrite chars_app, <- length_chars, drop_app_length.
  apply of_chars_chars.
Qed.

Lemma startswith_slash s :
  Str.startswith s "/" = true ↔ ∃ s', s = String "/" s'.
Proof.
  unfold Str.startswith. rewrite bool_decide_eq_true. split.
  - intros [k Hk]. destruct s as [|c s']; simpl in Hk; [done|].
    injection Hk as -> _. by exists s'.
  - intros [s' ->]. by exists (Str.chars s').
Qed.

Lemma absolute_not_default s :
  Str.startswith s "/" = true → Str.startswith s DEFAULT_SCENE_PATH_PREFIX = false.
Proof.
  intros [s' ->]%startswith_slash. unfold Str.startswith.
  apply bool_decide_eq_false. by intros [k Hk].
Qed.

Lemma rewrite_prefixed rest :
  Str.startswith rest "/" = false →
  rewrite_scene_id "data/scene_datasets" (DEFAULT_SCENE_PATH_PREFIX +:+ rest)
    = DEFAULT_SCENE_PATH_PREFIX +:+ rest.
Proof.
  intros Hrel. unfold rewrite_scene_id.
  rewrite startswith_app, slice_from_app. unfold posixpath.join. by rewrite Hrel.
Qed.

Lemma rewrite_rooted root s :
  Str.startswith s "/" = true → rewrite_scene_id root s = s.
Proof.
  intros Habs. unfold rewrite_scene_id.
  rewrite (absolute_not_default s Habs). unfold posixpath.join. by rewrite Habs.
Qed.

(** X8: with the asset root ["data/scene_datasets"], every scene path that
    starts with the default prefix and continues with a relative remainder
    is rewritten to itself. *)
Theorem rewrite_default_root rest :
  Str.startswith rest "/" = false →
  rewrite_scene_id "data/scene_datasets" (DEFAULT_SCENE_PATH_PREFIX +:+ rest)
    = DEFAULT_SCENE_PATH_PREFIX +:+ rest.
Proof. apply rewrite_prefixed. Qed.

Lemma rewrite_default_root_witness :
  Str.startswith "gibson/Denmark.glb" "/" = false ∧
  rewrite_scene_id "data/scene_datasets" (DEFAULT_SCENE_PATH_PREFIX +:+ "gibson/Denmark.glb")
    = "data/scene_datasets/gibson/Denmark.glb".
Proof. split; [by_eval|]. exact (rewrite_default_root "gibson/Denmark.glb" eq_refl). Defined.

(** X9: an absolute scene path is kept as it is, whatever the asset root:
    it cannot start with the default prefix, and [os.path.join] drops the
    root in front of an absolute path. *)
Theorem rewrite_absolute root s :
  Str.startswith s "/" = true → rewrite_scene_id root s = s.
Proof. apply rewrite_rooted. Qed.

Lemma rewrite_absolute_witness :
  Str.startswith "/mnt/scenes/Adrian.glb" "/" = true ∧
  rewrite_scene_id "data/scene_datasets" "/mnt/scenes/Adrian.glb" = "/mnt/scenes/Adrian.glb".
Proof. split; [by_eval|]. exact (rewrite_absolute _ "/mnt/scenes/Adrian.glb" eq_refl). Defined.

Lemma join_absolute_root root s :
  Str.startswith root "/" = true → Str.startswith (posixpath.join root s) "/" = true.
Proof.
  intros Hroot. unfold posixpath.join.
  destruct (Str.startswith s "/") eqn:Hs; [done|].
  apply startswith_slash in Hroot as [r ->]. apply startswith_slash.
  destruct (_ || _); simpl; by eexists.
Qed.

(** X10: when the asset root is absolute, or is ["data/scene_datasets"],
    rewriting a scene path that has been rewritten already changes
    nothing. *)
Theorem rewrite_idempotent root s :
  root = "data/scene_datasets" ∨ Str.startswith root "/" = true →
  rewrite_scene_id root (rewrite_scene_id root s) = rewrite_scene_id root s.
Proof.
  intros [->|Hroot].
  - set (s' := if Str.startswith s DEFAULT_SCENE_PATH_PREFIX
                then Str.slice_from (String.length DEFAULT_SCENE_PATH_PREFIX) s else s).
    change (rewrite_scene_id "data/scene_datasets" s)
      with (posixpath.join "data/scene_datasets" s').
    unfold posixpath.join. destruct (Str.startswith s' "/") eqn:Hs'.
    + by apply rewrite_rooted.
    + by apply (rewrite_prefixed s').
  - apply rewrite_rooted. unfold rewrite_scene_id. by apply join_absolute_root.
Qed.

Lemma rewrite_idempotent_witness :
  ("data/scene_datasets" = "data/scene_datasets" ∨
   Str.startswith "data/scene_datasets" "/" = true) ∧
  rewrite_scene_id "data/scene_datasets"
    (rewrite_scene_id "data/scene_datasets" "gibson/Denmark.glb")
    = "data/scene_datasets/gibson/Denmark.glb".
Proof.
  split; [by left|].
  by rewrite (rewrite_idempotent "data/scene_datasets" "gibson/Denmark.glb" (or_introl eq_refl)).
Defined.

(** With a relative root other than the default one a second rewrite adds
    the root again. *)
Example rewrite_relative_root_twice :
  rewrite_scene_id "assets" (rewrite_scene_id "assets" "Adrian.glb") = "assets/assets/Adrian.glb".
Proof. by_eval. Qed.

(** ** More on scene discovery *)

Lemma split_go_absent sep cur s :
  Str.contains_go sep s = false → Str.split_go sep 0 cur s = [reverse cur ++ s].
Proof.
  revert cur. induction s as [|c s IH]; intros cur; simpl.
  - by rewrite app_nil_r.
  - intros [Hhere Hlater]%orb_false_iff. rewrite Hhere.
    rewrite (IH _ Hlater). by rewrite reverse_cons, <- app_assoc.
Qed.

Lemma split_absent s sep : Str.contains s sep = false → Str.split s sep = [s].
Proof.
  intros Habsent. unfold Str.split. rewrite (split_go_absent _ [] _ Habsent). simpl.
  by rewrite of_chars_chars.
Qed.

(** X12: scene discovery gives up before it looks at the filesystem when
    the template has no scene token, with [IndexError] from the second
    [split(...)[1]], and when the template is not a string, with
    [AttributeError]. *)
Theorem get_scenes_from_folder_no_token rt template dir tr :
  (∀ t, template = PStr t → Str.contains t "{scene}" = false) →
  ∃ e, _get_scenes_from_folder rt template dir tr = (Raise e, tr) ∧
       e = match template with PStr _ => IndexError | _ => AttributeError end.
Proof.
  intros Habsent. unfold _get_scenes_from_folder.
  destruct template as [| | |t| | |]; try (by eexists).
  exists IndexError. split; [|done]. monad_unfold.
  by rewrite (split_absent t "{scene}" (Habsent t eq_refl)).
Qed.

Lemma get_scenes_from_folder_no_token_witness :
  let rt := Demo.runtime_of Demo.docs (Demo.sharded Demo.combined_empty) in
  (∀ t, PStr "{data_path}/content/all.json.gz" = PStr t → Str.contains t "{scene}" = false) ∧
  _get_scenes_from_folder rt (PStr "{data_path}/content/all.json.gz")
    (posixpath.dirname Demo.train) [] = (Raise IndexError, []).
Proof.
  intros rt.
  assert (∀ t, PStr "{data_path}/content/all.json.gz" = PStr t →
               Str.contains t "{scene}" = false) as Habsent by (by intros t [= <-]).
  split; [exact Habsent|].
  destruct (get_scenes_from_folder_no_token rt _ (posixpath.dirname Demo.train) [] Habsent)
    as (e & -> & ->). done.
Defined.

(** ** More on the loader *)

Lemma rfilter_spec {A} (p : A → result bool) l kept :
  rfilter p l = Ok kept →
  kept `sublist_of` l ∧ ∀ x, x ∈ kept ↔ x ∈ l ∧ p x = Ok true.
Proof.
  revert kept. induction l as [|y l IH]; intros kept; simpl.
  - intros [= <-]. split; [done|]. intros x. rewrite elem_of_nil. tauto.
  - destruct (p y) as [b|e] eqn:Hy; simpl; [|done].
    destruct (rfilter p l) as [rest|e]; simpl; [|done].
    destruct (IH rest eq_refl) as [Hsub Hin]. intros [= <-]. destruct b.
    + split; [by apply sublist_skip|]. intros x. rewrite !elem_of_cons, Hin.
      split; [intros [->|[??]]; auto|intros [[->|?] ?]; auto].
    + split; [by apply sublist_cons|]. intros x. rewrite elem_of_cons, Hin.
      split; [intros [??]; auto|intros [[->|?] ?]; [congruence|auto]].
Qed.

(** The loader on a monolithic layout, up to the filter. *)
Lemma init_monolithic_eq rt hab cfg dfp text st0 template content_dir tr :
  monolithic_layout rt hab cfg dfp text st0 template content_dir →
  __init__ rt hab (Some cfg) (fresh tr) =
    (keep <- lift (build_content_scenes_filter hab cfg) ;;
     eps <- gets (λ st, episodes (self st)) ;;
     kept <- lift (rfilter keep eps) ;;
     set_episodes kept)
      (mkState (mkDataset (episodes (self st0)) (PStr template))
               (tr ++ opening_trace dfp text content_dir)).
Proof.
  intros (Hfmt & Hread & Hjson & Htmpl & (prefix & Hsplit & Hdir) & Hexists).
  pose proof (from_json_eq rt hab text (scenes_dir cfg) (fresh [])) as Htr.
  rewrite Hjson in Htr. simpl in Htr.
  unfold __init__, set_episodes, gzip_read_io. monad_unfold.
  rewrite Hfmt; simpl. rewrite Hread; simpl.
  rewrite from_json_framed. unfold transport; simpl.
  change (blank (PStr default_content_scenes_path)) with (fresh []).
  rewrite Hjson; simpl. rewrite Htmpl.
  rewrite (has_individual_scene_files_eq _ _ _ _ _ _ Hsplit Hdir); simpl.
  rewrite Hexists; simpl.
  injection Htr as _ Hst0. rewrite Hst0; simpl.
  rewrite <- !app_assoc; simpl.
  destruct st0 as [[eps0 csp0] tr0]; simpl in *. by subst csp0.
Qed.

(** X13: on a monolithic layout (no content directory) the loader opens
    the combined file and nothing else, lists no directory whatever the
    requested scenes are, and leaves in the dataset the episodes of the
    combined file that the content-scenes filter keeps, in file order. *)
Theorem init_monolithic rt hab cfg dfp text st0 template content_dir keep kept tr :
  monolithic_layout rt hab cfg dfp text st0 template content_dir →
  build_content_scenes_filter hab cfg = Ok keep →
  rfilter keep (episodes (self st0)) = Ok kept →
  __init__ rt hab (Some cfg) (fresh tr) =
    (Ok tt, mkState (mkDataset kept (PStr template))
                    (tr ++ opening_trace dfp text content_dir)) ∧
  kept `sublist_of` episodes (self st0) ∧
  (∀ e, e ∈ kept ↔ e ∈ episodes (self st0) ∧ keep e = Ok true).
Proof.
  intros Hlayout Hkeep Hkept. split; [|by apply rfilter_spec].
  rewrite (init_monolithic_eq _ _ _ _ _ _ _ _ _ Hlayout). monad_unfold.
  rewrite Hkeep; simpl. by rewrite Hkept.
Qed.

Ltac demo_monolithic prefix :=
  unfold monolithic_layout; split_and!; [by_eval..|exists prefix; split; by_eval|by_eval].

Lemma init_monolithic_witness :
  let rt := Demo.runtime_of Demo.docs Samples.monolithic in
  let cfg := Demo.config ["Adrian"] in
  let text := Demo.dumps Demo.shard_adrian in
  let st0 := (from_json rt Demo.hab text (scenes_dir cfg) (fresh [])).2 in
  let keep := match Demo.keep cfg with Ok k => k | Raise _ => λ _, Ok false end in
  monolithic_layout rt Demo.hab cfg Demo.train text st0
    default_content_scenes_path Demo.content ∧
  build_content_scenes_filter Demo.hab cfg = Ok keep ∧
  rfilter keep (episodes (self st0)) = Ok (episodes (self st0)) ∧
  __init__ rt Demo.hab (Some cfg) (fresh []) =
    (Ok tt, mkState (mkDataset (episodes (self st0)) (PStr default_content_scenes_path))
                    ([] ++ opening_trace Demo.train text Demo.content)).
Proof.
  intros rt cfg text st0 keep.
  assert (monolithic_layout rt Demo.hab cfg Demo.train text st0
            default_content_scenes_path Demo.content) as Hlayout
    by demo_monolithic "{data_path}/content/".
  assert (rfilter keep (episodes (self st0)) = Ok (episodes (self st0))) as Hkept by by_eval.
  split_and!; [exact Hlayout|reflexivity|exact Hkept|].
  exact (proj1 (init_monolithic rt Demo.hab cfg Demo.train text st0 _ Demo.content keep _ []
                  Hlayout eq_refl Hkept)).
Defined.

(** X14: when the combined file cannot be read, or its text does not
    parse, the loader raises that very exception and stops there: the
    layout is not tested, so no [os.path.exists] call is made, and the
    object holds what [from_json] had appended. *)
Theorem init_combined_fails rt hab cfg dfp tr :
  str_format rt (data_path cfg) [("split", split cfg)] = Ok dfp →
  (∀ e, gzip_read rt dfp = Raise e →
        __init__ rt hab (Some cfg) (fresh tr) = (Raise e, fresh (tr ++ [gzip_open_call dfp]))) ∧
  (∀ text e st0,
     gzip_read rt dfp = Ok text →
     from_json rt hab text (scenes_dir cfg) (fresh []) = (Raise e, st0) →
     __init__ rt hab (Some cfg) (fresh tr) =
       (Raise e, mkState (self st0) (tr ++ [gzip_open_call dfp; json_loads_call text]))).
Proof.
  intros Hfmt. split.
  - intros e Hread. unfold __init__, set_episodes, gzip_read_io. monad_unfold.
    rewrite Hfmt; simpl. by rewrite Hread.
  - intros text e st0 Hread Hjson.
    pose proof (from_json_eq rt hab text (scenes_dir cfg) (fresh [])) as Htr.
    rewrite Hjson in Htr. simpl in Htr.
    unfold __init__, set_episodes, gzip_read_io. monad_unfold.
    rewrite Hfmt; simpl. rewrite Hread; simpl.
    rewrite from_json_framed. unfold transport; simpl.
    change (blank (PStr default_content_scenes_path)) with (fresh []).
    rewrite Hjson; simpl. destruct st0 as [[eps0 csp0] tr0].
    injection Htr as _ _ ->. simpl. by rewrite <- app_assoc.
Qed.

Lemma init_combined_fails_witness :
  let rt := Demo.runtime_of Demo.docs
              (Demo.mkDisk [(Demo.train, Demo.dumps Demo.truncated)] []) in
  let cfg := Demo.config ["*"] in
  let text := Demo.dumps Demo.truncated in
  str_format rt (data_path cfg) [("split", split cfg)] = Ok Demo.train ∧
  gzip_read rt Demo.train = Ok text ∧
  (from_json rt Demo.hab text (scenes_dir cfg) (fresh [])).1 = Raise TypeError ∧
  (__init__ rt Demo.hab (Some cfg) (fresh [])).1 = Raise TypeError ∧
  trace (__init__ rt Demo.hab (Some cfg) (fresh [])).2
    = [gzip_open_call Demo.train; json_loads_call text].
Proof.
  intros rt cfg text.
  destruct (from_json rt Demo.hab text (scenes_dir cfg) (fresh [])) as [r st0] eqn:Hjson.
  assert (r = Raise TypeError) as -> by (vm_compute in Hjson; by injection Hjson as <- _).
  split_and!; [by_eval|by_eval|done| |];
    rewrite (proj2 (init_combined_fails rt Demo.hab cfg Demo.train [] eq_refl)
               text TypeError st0 eq_refl Hjson); done.
Defined.

Lemma for_each_load_scene_stop rt hab template dir sd seen scene rest e eps tr :
  Forall (shard_ok rt hab template dir sd) seen →
  (shard_run rt hab template dir sd scene).1 = Raise e →
  ∃ st',
    for_each (seen ++ scene :: rest) (load_scene rt hab dir sd)
      (mkState (mkDataset eps (PStr template)) tr) = (Raise e, st') ∧
    episodes (self st') =
      eps ++ concat (shard_episodes rt hab template dir sd <$> seen)
          ++ shard_episodes rt hab template dir sd scene ∧
    trace st' =
      tr ++ concat (shard_trace rt hab template dir sd <$> seen)
         ++ shard_trace rt hab template dir sd scene.
Proof.
  intros Hseen Hfail. revert eps tr.
  induction Hseen as [|s seen [Hrun Htmpl] _ IH]; intros eps tr; simpl.
  - unfold bind. rewrite load_scene_framed. unfold transport; simpl.
    fold (shard_run rt hab template dir sd scene). rewrite Hfail.
    eexists. split; [done|]. by split.
  - unfold bind. rewrite load_scene_framed. unfold transport; simpl.
    fold (shard_run rt hab template dir sd s). rewrite Hrun, Htmpl.
    destruct (IH (eps ++ shard_episodes rt hab template dir sd s)
                 (tr ++ shard_trace rt hab template dir sd s)) as (st' & Hrest & Heps & Htr).
    exists st'. split; [exact Hrest|]. rewrite Heps, Htr. by rewrite <- !app_assoc.
Qed.

Lemma shard_run_unreadable rt hab template dir sd scene scene_filename e :
  shard_file rt template dir scene = Ok scene_filename →
  gzip_read rt scene_filename = Raise e →
  shard_run rt hab template dir sd scene =
    (Raise e, mkState (mkDataset [] (PStr template)) [gzip_open_call scene_filename]).
Proof.
  unfold shard_file, shard_run. intros Hfile Hread. rewrite load_scene_eq; simpl.
  rewrite Hfile; simpl. by rewrite Hread.
Qed.

(** X15: on a sharded layout, a requested scene whose shard cannot be
    opened aborts the load with the exception [gzip.open] raised; the
    shards requested before it have been loaded and stay in the object,
    the ones after it are never opened: the trace ends with the failed
    open. *)
Theorem init_shard_unreadable rt hab cfg dfp text st0 template content_dir
    seen scene rest scene_filename e tr :
  sharded_layout rt hab cfg dfp text st0 template content_dir →
  ALL_SCENES_MASK hab ∉ content_scenes cfg →
  content_scenes cfg = seen ++ scene :: rest →
  let dir := posixpath.dirname dfp in
  let sd := scenes_dir cfg in
  Forall (shard_ok rt hab template dir sd) seen →
  shard_file rt template dir scene = Ok scene_filename →
  gzip_read rt scene_filename = Raise e →
  ∃ st',
    __init__ rt hab (Some cfg) (fresh tr) = (Raise e, st') ∧
    episodes (self st') =
      episodes (self st0) ++ concat (shard_episodes rt hab template dir sd <$> seen) ∧
    trace st' =
      (tr ++ opening_trace dfp text content_dir)
        ++ concat (shard_trace rt hab template dir sd <$> seen)
        ++ [gzip_open_call scene_filename].
Proof.
  intros Hlayout Hmask Hscenes dir sd Hseen Hfile Hread.
  pose proof (shard_run_unreadable rt hab template dir sd scene _ e Hfile Hread) as Hrun.
  rewrite (init_sharded _ _ _ _ _ _ _ _ _ Hlayout).
  rewrite bool_decide_eq_false_2 by done. unfold bind at 1, ret. rewrite Hscenes.
  destruct (for_each_load_scene_stop rt hab template dir sd seen scene rest e
              (episodes (self st0)) (tr ++ opening_trace dfp text content_dir) Hseen)
    as (st' & Hloop & Heps & Htr); [by rewrite Hrun|].
  exists st'. split; [exact Hloop|].
  assert (shard_episodes rt hab template dir sd scene = []) as Hnone
    by (unfold shard_episodes; by rewrite Hrun).
  assert (shard_trace rt hab template dir sd scene = [gzip_open_call scene_filename]) as Hopen
    by (unfold shard_trace; by rewrite Hrun).
  rewrite Hnone, app_nil_r in Heps. rewrite Hopen in Htr. done.
Qed.

Lemma init_shard_unreadable_witness :
  let rt := Demo.runtime_of Demo.docs Samples.broken in
  let cfg := Demo.config ["Adrian"; "Denmark"; "Adrian"] in
  let text := Demo.dumps Demo.combined_empty in
  let st0 := (from_json rt Demo.hab text (scenes_dir cfg) (fresh [])).2 in
  let dir := posixpath.dirname Demo.train in
  let sd := scenes_dir cfg in
  sharded_layout rt Demo.hab cfg Demo.train text st0 default_content_scenes_path Demo.content ∧
  (ALL_SCENES_MASK Demo.hab ∉ content_scenes cfg) ∧
  content_scenes cfg = ["Adrian"] ++ "Denmark" :: ["Adrian"] ∧
  Forall (shard_ok rt Demo.hab default_content_scenes_path dir sd) ["Adrian"] ∧
  shard_file rt default_content_scenes_path dir "Denmark"
    = Ok (Demo.content +:+ "Denmark.json.gz") ∧
  gzip_read rt (Demo.content +:+ "Denmark.json.gz") = Raise FileNotFoundError ∧
  ∃ st',
    __init__ rt Demo.hab (Some cfg) (fresh []) = (Raise FileNotFoundError, st') ∧
    episode_id <$> episodes (self st') = [PStr "a0"; PStr "a1"].
Proof.
  intros rt cfg text st0 dir sd.
  assert (sharded_layout rt Demo.hab cfg Demo.train text st0
            default_content_scenes_path Demo.content) as Hlayout
    by demo_layout "{data_path}/content/".
  assert (ALL_SCENES_MASK Demo.hab ∉ content_scenes cfg) as Hmask by compute_done.
  assert (Forall (shard_ok rt Demo.hab default_content_scenes_path dir sd) ["Adrian"])
    as Hseen by demo_shards.
  split_and!; [exact Hlayout|exact Hmask|reflexivity|exact Hseen|by_eval|by_eval|].
  destruct (init_shard_unreadable rt Demo.hab cfg Demo.train text st0 _ Demo.content
              ["Adrian"] "Denmark" ["Adrian"] (Demo.content +:+ "Denmark.json.gz")
              FileNotFoundError [] Hlayout Hmask eq_refl Hseen eq_refl eq_refl)
    as (st' & Hrun & Heps & _).
  exists st'. split; [exact Hrun|]. rewrite Heps. by_eval.
Defined.

(** ** get_scenes_to_load *)

(** X16: [get_scenes_to_load] raises [FileNotFoundError] when the
    combined file is missing and also when the file is there but the
    scenes directory is not; in both cases it has only asked for the
    existence of paths, the scenes directory being looked at only once the
    file is found. *)
Theorem get_scenes_to_load_not_found rt hab cfg dfp tr :
  str_format rt (data_path cfg) [("split", split cfg)] = Ok dfp →
  (os_path_exists rt dfp = false →
   get_scenes_to_load rt hab cfg tr =
     (Raise FileNotFoundError, tr ++ [os_path_exists_call dfp])) ∧
  (∀ d, os_path_exists rt dfp = true →
        scenes_dir cfg = Some d →
        os_path_exists rt d = false →
        get_scenes_to_load rt hab cfg tr =
          (Raise FileNotFoundError, tr ++ [os_path_exists_call dfp; os_path_exists_call d])).
Proof.
  intros Hfmt. split.
  - intros Hfile. unfold get_scenes_to_load, check_config_paths_exist, os_path_exists_io.
    monad_unfold. rewrite Hfmt; simpl. by rewrite Hfile.
  - intros d Hfile Hsd Hdir.
    unfold get_scenes_to_load, check_config_paths_exist, os_path_exists_io.
    monad_unfold. rewrite Hfmt; simpl. rewrite Hfile, Hsd; simpl. rewrite Hdir; simpl.
    by rewrite <- app_assoc.
Qed.

Lemma get_scenes_to_load_not_found_witness :
  let rt := Demo.runtime_of Demo.docs
              (Demo.mkDisk [(Demo.train, Demo.dumps Demo.combined_empty)] []) in
  let cfg := Demo.config ["*"] in
  str_format rt (data_path cfg) [("split", split cfg)] = Ok Demo.train ∧
  os_path_exists rt Demo.train = true ∧
  scenes_dir cfg = Some "data/scene_datasets" ∧
  os_path_exists rt "data/scene_datasets" = false ∧
  get_scenes_to_load rt Demo.hab cfg [] =
    (Raise FileNotFoundError,
     [] ++ [os_path_exists_call Demo.train; os_path_exists_call "data/scene_datasets"]).
Proof.
  intros rt cfg. split_and!; [by_eval..|].
  exact (proj2 (get_scenes_to_load_not_found rt Demo.hab cfg Demo.train [] eq_refl)
           "data/scene_datasets" eq_refl eq_refl eq_refl).
Defined.

Lemma new_dataset_no_scenes rt hab cfg dfp text st0 template content_dir tr :
  sharded_layout rt hab cfg dfp text st0 template content_dir →
  new_dataset rt hab (Some (set_content_scenes [] cfg)) tr =
    (Ok (mkDataset (episodes (self st0)) (PStr template)),
     tr ++ opening_trace dfp text content_dir).
Proof.
  intros Hlayout. unfold new_dataset.
  change (mkState (mkDataset [] (PStr default_content_scenes_path)) tr) with (fresh tr).
  assert (sharded_layout rt hab (set_content_scenes [] cfg) dfp text st0 template content_dir)
    as Hlayout' by exact Hlayout.
  by rewrite (init_sharded _ _ _ _ _ _ _ _ _ Hlayout').
Qed.

Lemma get_scenes_to_load_sharded_eq rt hab cfg dfp d text st0 template content_dir
    suffix filenames tr :
  config_paths_exist rt cfg dfp d →
  sharded_layout rt hab cfg dfp text st0 template content_dir →
  Str.split template "{scene}" !! 1 = Some suffix →
  os_listdir rt content_dir = Ok filenames →
  get_scenes_to_load rt hab cfg tr =
    (Ok (merge_sort String.le (available_scenes suffix filenames)),
     tr ++ listing_trace dfp d text content_dir).
Proof.
  intros (Hfmt & Hfile & Hsd & Hdir) Hlayout Hsuffix Hlist.
  pose proof (new_dataset_no_scenes rt hab cfg dfp text st0 template content_dir) as Hnew.
  destruct Hlayout as (H1 & H2 & H3 & H4 & (prefix & Hsplit & Hcdir) & Hexists).
  unfold get_scenes_to_load, check_config_paths_exist, os_path_exists_io.
  monad_unfold. rewrite Hfmt; simpl. rewrite Hfile, Hsd; simpl. rewrite Hdir; simpl.
  rewrite Hnew by (split_and!; eauto). simpl.
  rewrite (has_individual_scene_files_eq _ _ _ _ _ _ Hsplit Hcdir); simpl.
  rewrite Hexists; simpl.
  rewrite (get_scenes_from_folder_eq _ _ _ _ _ _ _ Hsplit Hsuffix Hcdir).
  rewrite Hexists, Hlist. unfold listing_trace, opening_trace.
  by rewrite <- !app_assoc.
Qed.

(** X17: on a sharded layout, with both configured paths present and a
    template whose part after the scene token is not empty,
    [get_scenes_to_load] returns in ascending order exactly the
    identifiers [scene] such that [scene] followed by that suffix is an
    entry of the content directory, each once as long as the entries are,
    whatever scenes the configuration requests; it opens the combined file
    once, to learn the template, and opens no shard. *)
Theorem get_scenes_to_load_sharded rt hab cfg dfp d text st0 template content_dir
    suffix filenames tr :
  config_paths_exist rt cfg dfp d →
  sharded_layout rt hab cfg dfp text st0 template content_dir →
  Str.split template "{scene}" !! 1 = Some suffix →
  suffix ≠ "" →
  os_listdir rt content_dir = Ok filenames →
  ∃ scenes,
    get_scenes_to_load rt hab cfg tr = (Ok scenes, tr ++ listing_trace dfp d text content_dir) ∧
    StronglySorted String.le scenes ∧
    (∀ scene, scene ∈ scenes ↔ scene +:+ suffix ∈ filenames) ∧
    (NoDup filenames → NoDup scenes).
Proof.
  intros Hpaths Hlayout Hsuffix Hne Hlist. eexists. split_and!.
  - by eapply get_scenes_to_load_sharded_eq.
  - apply (StronglySorted_merge_sort _).
  - intros scene. rewrite merge_sort_Permutation. by apply available_scenes_elem.
  - intros Hnodup. rewrite merge_sort_Permutation. by apply available_scenes_NoDup.
Qed.

Ltac demo_paths := unfold config_paths_exist; split_and!; by_eval.

Lemma get_scenes_to_load_sharded_witness :
  let rt := Demo.runtime_of Demo.docs (Demo.sharded Demo.combined_empty) in
  let cfg := Demo.config ["Denmark"] in
  let text := Demo.dumps Demo.combined_empty in
  let st0 := (from_json rt Demo.hab text (scenes_dir cfg) (fresh [])).2 in
  config_paths_exist rt cfg Demo.train "data/scene_datasets" ∧
  sharded_layout rt Demo.hab cfg Demo.train text st0 default_content_scenes_path Demo.content ∧
  Str.split default_content_scenes_path "{scene}" !! 1 = Some ".json.gz" ∧
  ".json.gz" ≠ "" ∧
  os_listdir rt Demo.content = Ok ["Denmark.json.gz"; "notes.txt"; "Adrian.json.gz"] ∧
  (get_scenes_to_load rt Demo.hab cfg []).1 = Ok ["Adrian"; "Denmark"].
Proof.
  intros rt cfg text st0.
  assert (config_paths_exist rt cfg Demo.train "data/scene_datasets") as Hpaths by demo_paths.
  assert (sharded_layout rt Demo.hab cfg Demo.train text st0
            default_content_scenes_path Demo.content) as Hlayout
    by demo_layout "{data_path}/content/".
  assert (".json.gz" ≠ "") as Hne by done.
  split_and!; [exact Hpaths|exact Hlayout|by_eval|exact Hne|by_eval|].
  destruct (get_scenes_to_load_sharded rt Demo.hab cfg Demo.train "data/scene_datasets" text
              st0 _ Demo.content ".json.gz" ["Denmark.json.gz"; "notes.txt"; "Adrian.json.gz"]
              [] Hpaths Hlayout eq_refl Hne eq_refl) as (scenes & Hrun & _ & _ & _).
  by_eval.
Defined.

(** X18: on a sharded layout whose shards all load, building the dataset
    with the list that [get_scenes_to_load] returned gives the same
    dataset as building it with the sentinel. *)
Theorem load_listed_scenes rt hab cfg dfp d text st0 template content_dir
    suffix filenames tr :
  config_paths_exist rt cfg dfp d →
  sharded_layout rt hab cfg dfp text st0 template content_dir →
  Str.split template "{scene}" !! 1 = Some suffix →
  os_listdir rt content_dir = Ok filenames →
  Forall (shard_ok rt hab template (posixpath.dirname dfp) (scenes_dir cfg))
    (available_scenes suffix filenames) →
  ∃ scenes,
    (get_scenes_to_load rt hab cfg tr).1 = Ok scenes ∧
    ∀ tr',
      let listed := __init__ rt hab (Some (set_content_scenes scenes cfg)) (fresh tr') in
      let all := __init__ rt hab
                   (Some (set_content_scenes [ALL_SCENES_MASK hab] cfg)) (fresh tr') in
      listed.1 = Ok tt ∧ all.1 = Ok tt ∧ self listed.2 = self all.2.
Proof.
  intros Hpaths Hlayout Hsuffix Hlist Hshards.
  exists (merge_sort String.le (available_scenes suffix filenames)).
  split; [by rewrite (get_scenes_to_load_sharded_eq _ _ _ _ _ _ _ _ _ _ _ _
                        Hpaths Hlayout Hsuffix Hlist)|].
  intros tr'. simpl.
  assert (Forall (shard_ok rt hab template (posixpath.dirname dfp) (scenes_dir cfg))
            (merge_sort String.le (available_scenes suffix filenames))) as Hsorted
    by (by rewrite merge_sort_Permutation).
  assert (∀ scenes, sharded_layout rt hab (set_content_scenes scenes cfg) dfp text st0
                      template content_dir) as Hlayout' by (intros scenes; exact Hlayout).
  destruct Hlayout as (_ & _ & _ & _ & (prefix & Hsplit & Hcdir) & Hexists).
  assert (∀ st, io (_get_scenes_from_folder rt (PStr template) (posixpath.dirname dfp)) st =
                (Ok (merge_sort String.le (available_scenes suffix filenames)),
                 mkState (self st) (trace st ++ [os_path_exists_call content_dir;
                                                 os_listdir_call content_dir]))) as Hfolder.
  { intros st. unfold io.
    rewrite (get_scenes_from_folder_eq _ _ _ _ _ _ _ Hsplit Hsuffix Hcdir).
    by rewrite Hexists, Hlist. }
  set (loaded := mkDataset
         (episodes (self st0) ++
          concat (shard_episodes rt hab template (posixpath.dirname dfp) (scenes_dir cfg)
                    <$> merge_sort String.le (available_scenes suffix filenames)))
         (PStr template)).
  assert (∀ scenes,
            scenes = merge_sort String.le (available_scenes suffix filenames) ∨
            scenes = [ALL_SCENES_MASK hab] →
            ∃ trace', __init__ rt hab (Some (set_content_scenes scenes cfg)) (fresh tr')
                      = (Ok tt, mkState loaded trace')) as Hload.
  { intros scenes Hscenes.
    rewrite (init_sharded _ _ _ _ _ _ _ _ _ (Hlayout' scenes)). simpl.
    case_bool_decide as Hmask.
    - unfold bind. rewrite Hfolder; simpl.
      rewrite (for_each_load_scene _ _ _ _ _ _ _ _ Hsorted). by eexists.
    - destruct Hscenes as [->| ->]; [|by destruct Hmask; apply list_elem_of_here].
      unfold bind, ret. rewrite (for_each_load_scene _ _ _ _ _ _ _ _ Hsorted). by eexists. }
  destruct (Hload _ (or_introl eq_refl)) as [trace1 ->].
  destruct (Hload _ (or_intror eq_refl)) as [trace2 ->].
  done.
Qed.

Lemma load_listed_scenes_witness :
  let rt := Demo.runtime_of Demo.docs (Demo.sharded Demo.combined_one) in
  let cfg := Demo.config [] in
  let text := Demo.dumps Demo.combined_one in
  let st0 := (from_json rt Demo.hab text (scenes_dir cfg) (fresh [])).2 in
  let filenames := ["Denmark.json.gz"; "notes.txt"; "Adrian.json.gz"] in
  config_paths_exist rt cfg Demo.train "data/scene_datasets" ∧
  sharded_layout rt Demo.hab cfg Demo.train text st0 default_content_scenes_path Demo.content ∧
  Str.split default_content_scenes_path "{scene}" !! 1 = Some ".json.gz" ∧
  os_listdir rt Demo.content = Ok filenames ∧
  Forall (shard_ok rt Demo.hab default_content_scenes_path (posixpath.dirname Demo.train)
            (scenes_dir cfg)) (available_scenes ".json.gz" filenames) ∧
  ∃ scenes,
    (get_scenes_to_load rt Demo.hab cfg []).1 = Ok scenes ∧
    self (__init__ rt Demo.hab (Some (set_content_scenes scenes cfg)) (fresh [])).2 =
    self (__init__ rt Demo.hab (Some (set_content_scenes ["*"] cfg)) (fresh [])).2.
Proof.
  intros rt cfg text st0 filenames.
  assert (config_paths_exist rt cfg Demo.train "data/scene_datasets") as Hpaths by demo_paths.
  assert (sharded_layout rt Demo.hab cfg Demo.train text st0
            default_content_scenes_path Demo.content) as Hlayout
    by demo_layout "{data_path}/content/".
  assert (Forall (shard_ok rt Demo.hab default_content_scenes_path
                    (posixpath.dirname Demo.train) (scenes_dir cfg))
            (available_scenes ".json.gz" filenames)) as Hshards.
  { change (available_scenes ".json.gz" filenames)
      with (strip_suffix ".json.gz" <$> ["Denmark.json.gz"; "Adrian.json.gz"]).
    demo_shards. }
  split_and!; [exact Hpaths|exact Hlayout|by_eval|by_eval|exact Hshards|].
  destruct (load_listed_scenes rt Demo.hab cfg Demo.train "data/scene_datasets" text st0 _
              Demo.content ".json.gz" filenames [] Hpaths Hlayout eq_refl eq_refl Hshards)
    as (scenes & Hrun & Hsame).
  exists scenes. split; [exact Hrun|]. by destruct (Hsame []) as (_ & _ & ?).
Defined.

(** X19: on a sharded layout the sentinel overrides whatever else is
    requested: a list of scenes that holds it loads exactly as the list
    made of the sentinel alone, so the other names in it, existing or not,
    play no part. *)
Theorem init_sentinel_overrides rt hab cfg dfp text st0 template content_dir tr :
  sharded_layout rt hab cfg dfp text st0 template content_dir →
  ALL_SCENES_MASK hab ∈ content_scenes cfg →
  __init__ rt hab (Some cfg) (fresh tr) =
    __init__ rt hab (Some (set_content_scenes [ALL_SCENES_MASK hab] cfg)) (fresh tr).
Proof.
  intros Hlayout Hmask.
  assert (sharded_layout rt hab (set_content_scenes [ALL_SCENES_MASK hab] cfg) dfp text st0
            template content_dir) as Hlayout' by exact Hlayout.
  rewrite (init_sharded _ _ _ _ _ _ _ _ _ Hlayout),
    (init_sharded _ _ _ _ _ _ _ _ _ Hlayout'). simpl.
  rewrite (bool_decide_eq_true_2 _ Hmask).
  by rewrite (bool_decide_eq_true_2 (ALL_SCENES_MASK hab ∈ [ALL_SCENES_MASK hab]))
    by apply list_elem_of_here.
Qed.

Lemma init_sentinel_overrides_witness :
  let rt := Demo.runtime_of Demo.docs (Demo.sharded Demo.combined_empty) in
  let cfg := Demo.config ["Nowhere"; "*"; "Adrian"] in
  let text := Demo.dumps Demo.combined_empty in
  let st0 := (from_json rt Demo.hab text (scenes_dir cfg) (fresh [])).2 in
  sharded_layout rt Demo.hab cfg Demo.train text st0 default_content_scenes_path Demo.content ∧
  ALL_SCENES_MASK Demo.hab ∈ content_scenes cfg ∧
  __init__ rt Demo.hab (Some cfg) (fresh []) =
    __init__ rt Demo.hab (Some (Demo.config ["*"])) (fresh []).
Proof.
  intros rt cfg text st0.
  assert (sharded_layout rt Demo.hab cfg Demo.train text st0
            default_content_scenes_path Demo.content) as Hlayout
    by demo_layout "{data_path}/content/".
  assert (ALL_SCENES_MASK Demo.hab ∈ content_scenes cfg) as Hmask by compute_done.
  split_and!; [exact Hlayout|exact Hmask|].
  exact (init_sentinel_overrides rt Demo.hab cfg Demo.train text st0 _ Demo.content []
           Hlayout Hmask).
Defined.

(** X20: an episode object whose goals are given as a list comes out of
    the parse with that list holding, position by position, the
    [NavigationGoal] built from each goal object. *)
Theorem parse_episode_goals hab sd kw gl e :
  parse_episode hab sd (PDict kw) = Ok e →
  dict_get kw "goals" = Some (PList gl) →
  ∃ gs, rmapM (construct (NavigationGoal hab)) gl = Ok gs ∧ goals e = PList gs.
Proof.
  unfold parse_episode; simpl. unfold NavigationEpisode_init.
  case_bool_decide; simpl; [|done].
  destruct (dict_get kw "episode_id"); simpl; [|done].
  destruct (dict_get kw "scene_id") as [given|]; simpl; [|done].
  destruct (dict_get kw "start_position"); simpl; [|done].
  destruct (dict_get kw "start_rotation"); simpl; [|done].
  destruct (dict_get kw "goals") as [g|]; simpl; [|done].
  intros Hrun [= ->].
  assert (∀ ep, goals ep = PList gl →
            (let? gs := convert_items (NavigationGoal hab) (goals ep) in
             let? ps := convert_paths hab (shortest_paths (set_goals gs ep)) in
             Ok (set_shortest_paths ps (set_goals gs ep))) = Ok e →
            ∃ gs, rmapM (construct (NavigationGoal hab)) gl = Ok gs ∧ goals e = PList gs)
    as Hrest.
  { intros ep ->. unfold convert_items; simpl.
    pose proof (convert_from_map (NavigationGoal hab) gl []) as Hmap.
    simpl in Hmap. rewrite Hmap.
    destruct (rmapM (construct (NavigationGoal hab)) gl) as [gs|err]; simpl; [|done].
    destruct (convert_paths hab _) as [ps|err]; simpl; [|done].
    intros [= <-]. by exists gs. }
  destruct sd as [root|]; simpl in Hrun.
  - destruct given as [| | |s| | |]; simpl in Hrun; try done.
    eapply (Hrest (mkEpisode _ (PStr (rewrite_scene_id root s)) _ _ (PList gl) _));
      [reflexivity|exact Hrun].
  - eapply (Hrest (mkEpisode _ _ _ _ (PList gl) _)); [reflexivity|exact Hrun].
Qed.

Lemma parse_episode_goals_witness :
  let kw := [("episode_id", PStr "0"); ("scene_id", PStr Demo.adrian);
             ("start_position", PList []); ("start_rotation", PList []);
             ("goals", PList [PDict [("position", PList [PNum "1"])];
                              PDict [("position", PList [PNum "2"])]])] in
  let gl := [PDict [("position", PList [PNum "1"])]; PDict [("position", PList [PNum "2"])]] in
  ∃ e,
    parse_episode Demo.hab None (PDict kw) = Ok e ∧
    dict_get kw "goals" = Some (PList gl) ∧
    goals e = PList [PInstance "NavigationGoal" [("position", PList [PNum "1"])];
                     PInstance "NavigationGoal" [("position", PList [PNum "2"])]].
Proof.
  intros kw gl.
  destruct (parse_episode Demo.hab None (PDict kw)) as [e|err] eqn:Hrun;
    [|by vm_compute in Hrun].
  exists e. split_and!; [done|reflexivity|].
  destruct (parse_episode_goals Demo.hab None kw gl e Hrun eq_refl) as (gs & Hgs & ->).
  vm_compute in Hgs. by injection Hgs as <-.
Defined.
